(** * gkraken: the presenter's status refresh, fan-duty resolution and
      current-profile bookkeeping, and the chart data of [util/view.py]

    A shallow embedding of [gkraken/presenter.py], of
    [gkraken/interactor/get_status_interactor.py] and of
    [get_speed_profile_data] from [gkraken/util/view.py].

    Python integers are [Z].  A Python [float] is a finite rational or one
    of the three special values; Python compares a float with an int
    exactly, so the comparison is the one of the rationals.  The peewee
    tables are lists of rows in row order.  The presenter's effects (view
    calls, log records, device requests) are appended to a chronological
    trace kept in the state that every method threads. *)

From Stdlib Require Import ZArith QArith String Ascii List Lia.
From stdpp Require Import base option list gmap strings.

Local Open Scope string_scope.
Local Open Scope list_scope.
Local Open Scope Z_scope.

(** ** Values *)

Inductive pyfloat : Type :=
| Finite (q : Q)
| PosInf
| NegInf
| NaN.

(** [x >= t] for a float [x] and an int [t]. *)
Definition float_ge_int (x : pyfloat) (t : Z) : bool :=
  match x with
  | Finite q => Qle_bool (inject_Z t) q
  | PosInf => true
  | NegInf => false
  | NaN => false
  end.

Inductive exn : Type :=
| StopIteration
| KeyError (key : string)
| Exception (msg : string)
| AttributeError (msg : string).

(** [repr(s)] of a [str]; a character of the string is a code point below
    256.  The quote is the single one, unless the string holds a single
    quote and no double quote.  The quote and the backslash are escaped
    with a backslash; tab, newline and carriage return have their letter;
    the other characters that are not printable (below 32, from 127 to
    160, and 173) are written [\xNN] in lower-case hexadecimal. *)
Definition single_quote : ascii := ascii_of_nat 39.

Definition double_quote : ascii := ascii_of_nat 34.

Definition backslash : ascii := ascii_of_nat 92.

Fixpoint holds (c : ascii) (s : string) : bool :=
  match s with
  | EmptyString => false
  | String c' s' => Ascii.eqb c c' || holds c s'
  end.

Definition hex_digit (n : nat) : ascii :=
  ascii_of_nat (if (n <? 10)%nat then 48 + n else 87 + n).

Definition printable (n : nat) : bool :=
  ((32 <=? n) && (n <=? 126) || (161 <=? n) && negb (n =? 173))%nat.

Definition repr_char (quote c : ascii) : string :=
  let n := nat_of_ascii c in
  if Ascii.eqb c quote || Ascii.eqb c backslash then String backslash (String c EmptyString)
  else if (n =? 9)%nat then String backslash "t"%string
  else if (n =? 10)%nat then String backslash "n"%string
  else if (n =? 13)%nat then String backslash "r"%string
  else if printable n then String c EmptyString
  else String backslash
         (String "x"%char (String (hex_digit (n / 16)) (String (hex_digit (n mod 16)) EmptyString))).

Fixpoint repr_body (quote : ascii) (s : string) : string :=
  match s with
  | EmptyString => EmptyString
  | String c s' => repr_char quote c +:+ repr_body quote s'
  end.

Definition py_repr (s : string) : string :=
  let quote :=
    if holds single_quote s && negb (holds double_quote s)
    then double_quote else single_quote in
  String quote (repr_body quote s +:+ String quote EmptyString).

(** [str(ex)]: the message of the exception; for a [KeyError], the
    [repr] of the key. *)
Definition str_exn (ex : exn) : string :=
  match ex with
  | StopIteration => ""
  | KeyError key => py_repr key
  | Exception msg => msg
  | AttributeError msg => msg
  end.

Inductive outcome (A : Type) : Type :=
| Returned (a : A)
| Raised (e : exn).
Arguments Returned {A} a.
Arguments Raised {A} e.

(** ** The model classes of [gkraken.model] *)

(** Modelled from the spec: the enumeration [ChannelType] of
    [gkraken.model] is not part of the sources at hand; the spec names
    its members FAN and PUMP ("a controllable device output (fan or
    pump)").  Iteration over the enumeration follows declaration order. *)
Inductive ChannelType : Type := FAN | PUMP.

Definition ChannelType_value (c : ChannelType) : string :=
  match c with
  | FAN => "fan"
  | PUMP => "pump"
  end.

Definition ChannelType_members : list ChannelType := [FAN; PUMP].

Record SpeedStep : Type := mkSpeedStep {
  temperature : Z;
  duty : Z
}.

(** [steps] is the back-reference [profile.steps]: the profile's steps in
    the order in which the query yields them. *)
Record SpeedProfile : Type := mkSpeedProfile {
  id : Z;
  channel : string;
  name : string;
  single_step : bool;
  steps : list SpeedStep
}.

(** A row of the table of currently applied profiles; [profile] is the
    row the foreign key points to. *)
Record CurrentSpeedProfile : Type := mkCurrentSpeedProfile {
  csp_channel : string;
  profile : SpeedProfile
}.

(** Modelled from the spec: the class [Status] of [gkraken.model] is not
    part of the sources at hand; the spec lists the fields
    liquid_temperature (float), fan_speed and pump_speed (optional
    integers). *)
Record Status : Type := mkStatus {
  liquid_temperature : pyfloat;
  fan_speed : option Z;
  pump_speed : option Z
}.

Definition set_fan_speed (status : Status) (v : Z) : Status :=
  mkStatus (liquid_temperature status) (Some v) (pump_speed status).

(** ** The constants of [gkraken.conf] *)

Inductive setting_value : Type :=
| VBool (b : bool)
| VInt (n : Z)
| VOther.

(** The module [gkraken.conf] is not part of the sources at hand: its
    constants are taken as parameters. *)
Record Conf : Type := mkConf {
  MIN_TEMP : Z;
  MAX_TEMP : Z;
  MAX_DUTY : Z;
  SETTINGS_DEFAULTS : list (string * setting_value)
}.

Definition _ADD_NEW_PROFILE_INDEX : Z := -10.

(** ** Effects *)

Inductive view_call : Type :=
| refresh_status (status : Status)
| refresh_profile_combobox (c : ChannelType) (data : list (Z * string))
                           (active : option nat)
| set_statusbar_text (text : string)
| refresh_settings (settings : gmap string setting_value).

Inductive log_level : Type := DEBUG | EXCEPTION.

Inductive event : Type :=
| View (c : view_call)
| Log (level : log_level) (msg : string)
(** [kraken_repository.get_status()] is called, at the given time of the
    clock that drives the interval *)
| DeviceGetStatus (time : Z)
(** the observable of [SetSpeedProfileInteractor.execute(channel, data)]
    is subscribed *)
| DeviceSetSpeedProfile (chan : string) (data : list (Z * Z))
(** the observable of [CheckNewVersionInteractor.execute()] is
    subscribed *)
| CheckNewVersion.

(** The settings interactor, read only here. *)
Record SettingsInteractor : Type := mkSettings {
  get_bool : string -> bool;
  get_int : string -> Z
}.

(** The refresh subscription held by the composite disposable: the period
    of its interval and the number of ticks emitted so far. *)
Record refresh_subscription : Type := mkRefresh {
  period : Z;
  emitted : nat
}.

Record world : Type := mkWorld {
  speed_profile_table : list SpeedProfile;
  current_speed_profile_table : list CurrentSpeedProfile;
  _settings_interactor : SettingsInteractor;
  _profile_selected : gmap string SpeedProfile;
  _should_update_fan_speed : bool;
  refresh : option refresh_subscription;
  clock : Z;
  trace : list event
}.

Definition with_current_speed_profile_table (t : list CurrentSpeedProfile)
    (w : world) : world :=
  mkWorld (speed_profile_table w) t (_settings_interactor w)
          (_profile_selected w) (_should_update_fan_speed w) (refresh w)
          (clock w) (trace w).

Definition with_should_update_fan_speed (b : bool) (w : world) : world :=
  mkWorld (speed_profile_table w) (current_speed_profile_table w)
          (_settings_interactor w) (_profile_selected w) b (refresh w)
          (clock w) (trace w).

Definition with_refresh (r : option refresh_subscription) (w : world) : world :=
  mkWorld (speed_profile_table w) (current_speed_profile_table w)
          (_settings_interactor w) (_profile_selected w)
          (_should_update_fan_speed w) r (clock w) (trace w).

Definition with_clock (t : Z) (w : world) : world :=
  mkWorld (speed_profile_table w) (current_speed_profile_table w)
          (_settings_interactor w) (_profile_selected w)
          (_should_update_fan_speed w) (refresh w) t (trace w).

Definition with_trace (t : list event) (w : world) : world :=
  mkWorld (speed_profile_table w) (current_speed_profile_table w)
          (_settings_interactor w) (_profile_selected w)
          (_should_update_fan_speed w) (refresh w) (clock w) t.

(** State and exceptions: a method maps the state to its outcome and the
    state it leaves, also when it raises. *)
Definition M (A : Type) : Type := world -> outcome A * world.

Definition ret {A : Type} (a : A) : M A := fun w => (Returned a, w).

Definition raise {A : Type} (e : exn) : M A := fun w => (Raised e, w).

Definition bind {A B : Type} (m : M A) (k : A -> M B) : M B :=
  fun w =>
    match m w with
    | (Returned a, w') => k a w'
    | (Raised e, w') => (Raised e, w')
    end.

Notation "'let*' x ':=' m 'in' k" := (bind m (fun x => k))
  (at level 10, x name, m at level 100, k at level 200, only parsing).
Notation "m ';;' k" := (bind m (fun _ => k))
  (at level 100, k at level 200, right associativity, only parsing).

Definition gets {A : Type} (f : world -> A) : M A := fun w => (Returned (f w), w).

Definition modify (f : world -> world) : M unit := fun w => (Returned tt, f w).

Definition emit (e : event) : M unit :=
  modify (fun w => with_trace (trace w ++ [e]) w).

Definition view (c : view_call) : M unit := emit (View c).

Definition LOG (level : log_level) (msg : string) : M unit := emit (Log level msg).

(** The state a method leaves. *)
Definition exec {A : Type} (m : M A) (w : world) : world := snd (m w).

(** ** The tables *)

(** [CurrentSpeedProfile.get_or_none(channel=c)]: the first row of the
    channel, with its place in the table. *)
Definition get_or_none (c : string) : M (option (nat * CurrentSpeedProfile)) :=
  gets (fun w => list_find (fun row => csp_channel row = c)
                           (current_speed_profile_table w)).

(** [CurrentSpeedProfile.create(channel=c, profile=p)] *)
Definition create (c : string) (p : SpeedProfile) : M unit :=
  modify (fun w => with_current_speed_profile_table
                     (current_speed_profile_table w ++ [mkCurrentSpeedProfile c p]) w).

(** [current.save()] for the row read at place [i] *)
Definition save (i : nat) (row : CurrentSpeedProfile) : M unit :=
  modify (fun w => with_current_speed_profile_table
                     (<[i := row]> (current_speed_profile_table w)) w).

(** ** [Presenter._update_status] *)

(** [[i.duty for i in steps if liquid_temperature >= i.temperature]] *)
Definition duties (steps : list SpeedStep) (liquid : pyfloat) : list Z :=
  map duty (List.filter (fun i => float_ge_int liquid (temperature i)) steps).

Definition _update_status (status : option Status) : M unit :=
  match status with
  | Some status =>
      let* should := gets _should_update_fan_speed in
      let* status :=
        (if should then
           let* last_applied := get_or_none (ChannelType_value FAN) in
           match last_applied with
           | Some (_, last_applied) =>
               match last (duties (steps (profile last_applied))
                                  (liquid_temperature status)) with
               | Some d => ret (set_fan_speed status d)
               | None => ret status
               end
           | None => ret status
           end
         else ret status) in
      view (refresh_status status)
  | None => ret tt
  end.

(** ** Observables

    A finite observable: the items it emits, then how it ends. *)

Inductive termination : Type :=
| Completed
| Failed (e : exn).

Record Observable (A : Type) : Type := mkObservable {
  items : list A;
  ending : termination
}.
Arguments mkObservable {A} items ending.
Arguments items {A} o.
Arguments ending {A} o.

Definition just {A : Type} (a : A) : Observable A := mkObservable [a] Completed.

Definition throw {A : Type} (e : exn) : Observable A := mkObservable [] (Failed e).

(** [rx.defer(factory)] as the interactor writes it.  The presenter
    builds its pipelines with [Observable.interval], [rx.concurrency] and
    [catch_exception], which only Rx 1.x has; the module [rx] of Rx 1.x
    has no attribute [defer] (its [defer] is [Observable.defer]), so the
    attribute lookup raises before the factory is looked at. *)
Definition rx_defer {A : Type} (factory : M (Observable A)) : M (Observable A) :=
  raise (AttributeError "module 'rx' has no attribute 'defer'").

(** [source.catch_exception(handler)]: the source up to its failure,
    continued by the observable the handler returns. *)
Definition catch_exception {A : Type} (handler : exn -> M (Observable A))
    (source : Observable A) : M (Observable A) :=
  match ending source with
  | Completed => ret source
  | Failed e =>
      let* o := handler e in
      ret (mkObservable (items source ++ items o) (ending o))
  end.

Fixpoint for_each {A : Type} (f : A -> M unit) (l : list A) : M unit :=
  match l with
  | [] => ret tt
  | a :: l' => f a ;; for_each f l'
  end.

(** [source.subscribe(on_next=..., on_error=...)], the notifications
    delivered one after the other. *)
Definition subscribe {A : Type} (on_next : A -> M unit) (on_error : exn -> M unit)
    (source : Observable A) : M unit :=
  for_each on_next (items source) ;;
  match ending source with
  | Completed => ret tt
  | Failed e => on_error e
  end.

(** ** [GetStatusInteractor] *)

(** [kraken_repository.get_status()]: the repository is a collaborator,
    what the device answers is given. *)
Definition kraken_repository_get_status (answer : outcome (option Status))
    : M (option Status) :=
  let* now := gets clock in
  emit (DeviceGetStatus now) ;;
  match answer with
  | Returned status => ret status
  | Raised e => raise e
  end.

Definition GetStatusInteractor_execute (answer : outcome (option Status))
    : M (Observable (option Status)) :=
  LOG DEBUG "GetStatusInteractor.execute()" ;;
  rx_defer (let* status := kraken_repository_get_status answer in ret (just status)).

(** ** [Presenter]: applying a profile *)

Definition _get_profile_list (c : ChannelType) : M (list (Z * string)) :=
  gets (fun w => map (fun p => (id p, name p))
                   (List.filter (fun p => String.eqb (channel p) (ChannelType_value c))
                                (speed_profile_table w))).

Definition _get_profile_data (p : SpeedProfile) : list (Z * Z) :=
  map (fun s => (temperature s, duty s)) (steps p).

Definition upper (c : ascii) : ascii :=
  let n := nat_of_ascii c in
  if ((97 <=? n) && (n <=? 122))%nat then ascii_of_nat (n - 32) else c.

Definition lower (c : ascii) : ascii :=
  let n := nat_of_ascii c in
  if ((65 <=? n) && (n <=? 90))%nat then ascii_of_nat (n + 32) else c.

Fixpoint string_map (f : ascii -> ascii) (s : string) : string :=
  match s with
  | EmptyString => EmptyString
  | String c s' => String (f c) (string_map f s')
  end.

(** [s.capitalize()] on ASCII letters. *)
Definition capitalize (s : string) : string :=
  match s with
  | EmptyString => EmptyString
  | String c s' => String (upper c) (string_map lower s')
  end.

Definition _update_current_speed_profile (p : SpeedProfile) : M unit :=
  let* current := get_or_none (channel p) in
  match current with
  | None => create (channel p) p
  | Some (i, current) => save i (mkCurrentSpeedProfile (csp_channel current) p)
  end ;;
  view (set_statusbar_text (capitalize (channel p) +:+ " cooling profile applied")).

(** The two callbacks that [_set_speed_profile] subscribes. *)
Definition _set_speed_profile_on_next (p : SpeedProfile) (_ : unit) : M unit :=
  _update_current_speed_profile p.

Definition _set_speed_profile_on_error (p : SpeedProfile) (e : exn) : M unit :=
  LOG EXCEPTION ("Set cooling error: " +:+ str_exn e) ;;
  view (set_statusbar_text ("Error applying " +:+ channel p +:+ " speed profile!")).

(** [_set_speed_profile] subscribes the observable on the thread pool and
    returns; the notifications arrive later, on the GTK loop. *)
Definition _set_speed_profile (p : SpeedProfile) : M unit :=
  emit (DeviceSetSpeedProfile (channel p) (_get_profile_data p)).

(** Modelled from the spec: [SetSpeedProfileInteractor] is not part of the
    sources at hand.  The spec gives the device call as
    [sendProfile(channel, steps) -> raises DeviceError]; the observable is
    built as the one of [GetStatusInteractor]: it emits the value of the
    call, or fails with what the call raised. *)
Definition SetSpeedProfileInteractor_execute (answer : outcome unit) : Observable unit :=
  match answer with
  | Returned v => just v
  | Raised e => throw e
  end.

(** The notifications of an apply reach the callbacks. *)
Definition set_speed_profile_done (p : SpeedProfile) (answer : outcome unit) : M unit :=
  subscribe (_set_speed_profile_on_next p) (_set_speed_profile_on_error p)
            (SetSpeedProfileInteractor_execute answer).

Definition on_fan_apply_button_clicked : M unit :=
  let* selected := gets (fun w => _profile_selected w !! ChannelType_value FAN) in
  match selected with
  | Some p => _set_speed_profile p
  | None => raise (KeyError (ChannelType_value FAN))
  end ;;
  modify (with_should_update_fan_speed true).

Definition on_pump_apply_button_clicked : M unit :=
  let* selected := gets (fun w => _profile_selected w !! ChannelType_value PUMP) in
  match selected with
  | Some p => _set_speed_profile p
  | None => raise (KeyError (ChannelType_value PUMP))
  end.

(** ** [Presenter]: the status refresh *)

Definition _log_exception_return_empty_observable (ex : exn)
    : M (Observable (option Status)) :=
  LOG EXCEPTION ("Err = " +:+ str_exn ex) ;;
  view (set_statusbar_text (str_exn ex)) ;;
  ret (just None).

Definition _get_status (answer : outcome (option Status))
    : M (Observable (option Status)) :=
  let* source := GetStatusInteractor_execute answer in
  catch_exception _log_exception_return_empty_observable source.

Definition _start_refresh : M unit :=
  LOG DEBUG "start refresh" ;;
  let* seconds := gets (fun w => get_int (_settings_interactor w) "settings_refresh_interval") in
  let refresh_interval_ms := seconds * 1000 in
  modify (with_refresh (Some (mkRefresh refresh_interval_ms 0))).

(** [on_error] of the refresh subscription; the failed sequence is
    over. *)
Definition refresh_on_error (e : exn) : M unit :=
  LOG EXCEPTION ("Refresh error: " +:+ str_exn e) ;;
  modify (with_refresh None).

(** [source.flat_map(selector)] for one item of the source, subscribed
    with [on_next] and [on_error]: the inner observable that the selector
    returns is subscribed; an exception that the selector raises is a
    failure of the whole sequence and goes to [on_error]. *)
Definition flat_map_item {A : Type} (selector : M (Observable A))
    (on_next : A -> M unit) (on_error : exn -> M unit) : M unit :=
  fun w =>
    match selector w with
    | (Returned inner, w') => subscribe on_next on_error inner w'
    | (Raised e, w') => on_error e w'
    end.

(** One tick of the refresh subscription, with what the device would
    answer if it were asked:
    [.flat_map(lambda _: self._get_status())] delivered to
    [on_next=self._update_status] and to [on_error]. *)
Definition refresh_tick (answer : outcome (option Status)) : M unit :=
  let* sub := gets refresh in
  match sub with
  | None => ret tt
  | Some sub =>
      modify (with_refresh (Some (mkRefresh (period sub) (S (emitted sub))))) ;;
      flat_map_item (_get_status answer) _update_status refresh_on_error
  end.

(** ** [Presenter]: start-up *)

(** [current.profile], read for the first time: the foreign key is
    followed to the profile table, and the model's [DoesNotExist] is
    raised when no profile there has the id.  The profile found is the
    one that the row carries. *)
Definition CurrentSpeedProfile_profile (current : CurrentSpeedProfile)
    : M SpeedProfile :=
  let* found := gets (fun w => list_find (fun p => id p = id (profile current))
                                         (speed_profile_table w)) in
  match found with
  | Some _ => ret (profile current)
  | None => raise (Exception "SpeedProfileDoesNotExist")
  end.

(** The body of the loop of [_init_speed_profiles] for one channel.  The
    generator of [next(...)] reads [current.profile.id] when it tests the
    first item: over an empty list nothing is read and [StopIteration] is
    raised. *)
Definition _init_speed_profiles_channel (c : ChannelType) : M unit :=
  let* data := _get_profile_list c in
  let* load_last := gets (fun w => get_bool (_settings_interactor w) "settings_load_last_profile") in
  let* active :=
    (if load_last then
       modify (with_should_update_fan_speed true) ;;
       let* current := get_or_none (ChannelType_value c) in
       match current with
       | Some (_, current) =>
           match data with
           | [] => raise StopIteration
           | _ :: _ =>
               let* p := CurrentSpeedProfile_profile current in
               match list_find (fun item => item.1 = id p) data with
               | Some (i, _) =>
                   _set_speed_profile p ;;
                   ret (Some i)
               | None => raise StopIteration
               end
           end
       | None => ret None
       end
     else ret None) in
  let data := data ++ [(_ADD_NEW_PROFILE_INDEX,
                        "<span style='italic' alpha='50%'>Add new profile...</span>")] in
  view (refresh_profile_combobox c data active).

Definition _init_speed_profiles : M unit :=
  for_each _init_speed_profiles_channel ChannelType_members.

Definition _init_settings (conf : Conf) : M unit :=
  let* interactor := gets _settings_interactor in
  let settings :=
    fold_left (fun (settings : gmap string setting_value) item =>
                 match item.2 with
                 | VBool _ => <[item.1 := VBool (get_bool interactor item.1)]> settings
                 | VInt _ => <[item.1 := VInt (get_int interactor item.1)]> settings
                 | VOther => settings
                 end)
              (SETTINGS_DEFAULTS conf) ∅ in
  view (refresh_settings settings).

Definition _check_new_version : M unit := emit CheckNewVersion.

Definition on_start (conf : Conf) : M unit :=
  _init_speed_profiles ;;
  _init_settings conf ;;
  _start_refresh ;;
  _check_new_version.

(** The state that [__init__] leaves, over the tables and the settings
    it finds. *)
Definition Presenter_init (profiles : list SpeedProfile)
    (current : list CurrentSpeedProfile) (settings : SettingsInteractor) : world :=
  mkWorld profiles current settings ∅ false None 0 [Log DEBUG "init Presenter "].

(** ** The GTK loop

    What reaches the presenter after start-up, one delivery at a time: a
    tick of the refresh interval with the device's answer, or the end of
    an apply. *)
Inductive delivery : Type :=
| Tick (answer : outcome (option Status))
| SetSpeedProfileDone (p : SpeedProfile) (answer : outcome unit).

Definition deliver (d : delivery) : M unit :=
  match d with
  | Tick answer => refresh_tick answer
  | SetSpeedProfileDone p answer => set_speed_profile_done p answer
  end.

Definition main_loop (ds : list delivery) : M unit := for_each deliver ds.

(** ** [get_speed_profile_data] of [util/view.py] *)

(** [{p.temperature: p.duty for p in steps}] *)
Definition dict_of_steps (l : list SpeedStep) : gmap Z Z :=
  fold_left (fun (data : gmap Z Z) p => <[temperature p := duty p]> data) l ∅.

(** [min(keys)] of a list of keys that is not empty. *)
Definition list_min (keys : list Z) : option Z :=
  match keys with
  | [] => None
  | k :: keys' => Some (fold_left Z.min keys' k)
  end.

Definition get_speed_profile_data (conf : Conf) (p : SpeedProfile)
    : outcome (gmap Z Z) :=
  let data := dict_of_steps (steps p) in
  if bool_decide (data = ∅) then Returned data
  else if single_step p then
    match steps p with
    | first :: _ => Returned (<[MAX_TEMP conf := duty first]> data)
    | [] => Raised (Exception "IndexError")
    end
  else
    let filled :=
      match data !! MIN_TEMP conf with
      | Some _ => Returned data
      | None =>
          match list_min (elements (dom data)) with
          | Some lowest =>
              match data !! lowest with
              | Some d => Returned (<[MIN_TEMP conf := d]> data)
              | None => Raised (KeyError "min")
              end
          | None => Raised (Exception "ValueError")
          end
      end in
    match filled with
    | Returned data => Returned (<[MAX_TEMP conf := MAX_DUTY conf]> data)
    | Raised e => Raised e
    end.

(** ** [Presenter]: selecting a profile

    The view calls of these handlers that the trace has no event for are
    returned, in the order of the calls. *)

Definition with_profile_selected (selected : gmap string SpeedProfile)
    (w : world) : world :=
  mkWorld (speed_profile_table w) (current_speed_profile_table w)
          (_settings_interactor w) selected (_should_update_fan_speed w)
          (refresh w) (clock w) (trace w).

Inductive dialog_call : Type :=
| set_apply_button_enabled (c : ChannelType) (enabled : bool)
| set_edit_button_enabled (c : ChannelType) (enabled : bool)
| show_add_speed_profile_dialog (c : ChannelType)
| refresh_chart (p : SpeedProfile)
| show_fixed_speed_profile_popover (p : SpeedProfile).

(** [SpeedProfile.get(id=profile_id)]: the first row with the id, or the
    model's [DoesNotExist]. *)
Definition SpeedProfile_get (profile_id : Z) : M SpeedProfile :=
  let* found := gets (fun w => list_find (fun p => id p = profile_id)
                                         (speed_profile_table w)) in
  match found with
  | Some (_, p) => ret p
  | None => raise (Exception "SpeedProfileDoesNotExist")
  end.

Definition _select_speed_profile (profile_id : Z) (c : ChannelType)
    : M (list dialog_call) :=
  if profile_id =? _ADD_NEW_PROFILE_INDEX then
    ret [set_apply_button_enabled c false;
         set_edit_button_enabled c false;
         show_add_speed_profile_dialog c]
  else
    let* p := SpeedProfile_get profile_id in
    modify (fun w => with_profile_selected (<[channel p := p]> (_profile_selected w)) w) ;;
    ret [set_apply_button_enabled c true;
         set_edit_button_enabled c true;
         refresh_chart p].

Definition _on_edit_button_clicked (c : ChannelType) : M (list dialog_call) :=
  let* selected := gets (fun w => _profile_selected w !! ChannelType_value c) in
  match selected with
  | Some p =>
      if single_step p then ret [show_fixed_speed_profile_popover p] else ret []
  | None => raise (KeyError (ChannelType_value c))
  end.

Definition on_fan_edit_button_clicked : M (list dialog_call) :=
  _on_edit_button_clicked FAN.

Definition on_pump_edit_button_clicked : M (list dialog_call) :=
  _on_edit_button_clicked PUMP.

(** ** [Presenter.on_setting_changed] *)

(** [s] without the suffix, when it ends with it. *)
Fixpoint strip_suffix (suffix s : string) : option string :=
  if String.eqb s suffix then Some EmptyString
  else match s with
       | EmptyString => None
       | String c s' =>
           match strip_suffix suffix s' with
           | Some r => Some (String c r)
           | None => None
           end
       end.

Definition newline : string := String (ascii_of_nat 10) EmptyString.

(** [re.sub(suffix + '$', '', s)] for a literal [suffix]: [$] matches at
    the end of the string and also just before a newline that ends it. *)
Definition re_sub_at_end (suffix s : string) : string :=
  match strip_suffix suffix s with
  | Some r => r
  | None =>
      match strip_suffix (suffix +:+ newline) s with
      | Some r => r +:+ newline
      | None => s
      end
  end.

(** The widget that signals the change, as far as the handler looks at it:
    its class, its name and, for a spin button, its value. *)
Inductive widget : Type :=
| GtkSwitch (widget_name : string)
| GtkSpinButton (widget_name : string) (value_as_int : Z)
| GtkOther.

(** The call [set_bool(key, value)] that the handler makes, if any; an
    argument [None] of the signal is Python's [None]. *)
Definition on_setting_changed (wd : widget) (args : list (option setting_value))
    : outcome (option (string * setting_value)) :=
  match wd with
  | GtkSwitch widget_name =>
      match args with
      | [] => Raised (Exception "IndexError")
      | value :: _ =>
          let key := re_sub_at_end "_switch" widget_name in
          match value with
          | Some value => Returned (Some (key, value))
          | None => Returned None
          end
      end
  | GtkSpinButton widget_name value_as_int =>
      let key := re_sub_at_end "_spinbutton" widget_name in
      Returned (Some (key, VInt value_as_int))
  | GtkOther => Returned None
  end.

(** * Properties *)

(** ** What the properties speak of *)

(** The step's temperature is at most the measured one. *)
Definition qualifies (liquid : pyfloat) (s : SpeedStep) : Prop :=
  float_ge_int liquid (temperature s) = true.





(** The state after one more event. *)
Definition logged (e : event) (w : world) : world := with_trace (trace w ++ [e]) w.

(** [needle] occurs in [hay]. *)
Fixpoint occurs_in (needle hay : string) : bool :=
  String.prefix needle hay
  || match hay with
     | EmptyString => false
     | String _ hay' => occurs_in needle hay'
     end.

(** The table holds at most one row per channel. *)
Definition one_row_per_channel (t : list CurrentSpeedProfile) : Prop :=
  NoDup (csp_channel <$> t).

(** The rows of a channel. *)
Definition rows_of (c : string) (t : list CurrentSpeedProfile) : list CurrentSpeedProfile :=
  filter (fun row => csp_channel row = c) t.

(** The table after a successful apply of [p], as
    [_update_current_speed_profile] leaves it. *)
Definition upsert (p : SpeedProfile) (t : list CurrentSpeedProfile)
    : list CurrentSpeedProfile :=
  match list_find (fun row => csp_channel row = channel p) t with
  | None => t ++ [mkCurrentSpeedProfile (channel p) p]
  | Some (i, current) => <[i := mkCurrentSpeedProfile (csp_channel current) p]> t
  end.

(** The times at which the device was asked for its status. *)
Fixpoint fetch_times (t : list event) : list Z :=
  match t with
  | [] => []
  | DeviceGetStatus time :: t' => time :: fetch_times t'
  | _ :: t' => fetch_times t'
  end.

(** The number of ticks among the deliveries. *)
Fixpoint ticks (ds : list delivery) : nat :=
  match ds with
  | [] => 0%nat
  | Tick _ :: ds' => S (ticks ds')
  | SetSpeedProfileDone _ _ :: ds' => ticks ds'
  end.

Definition is_refresh_status (e : event) : bool :=
  match e with
  | View (refresh_status _) => true
  | _ => false
  end.

(** The row that [_update_status] reads for the fan. *)
Definition last_applied_fan (w : world) : option (nat * CurrentSpeedProfile) :=
  list_find (fun row => csp_channel row = ChannelType_value FAN)
            (current_speed_profile_table w).

(** The method only appends to the trace. *)
Definition extends_trace {A : Type} (m : M A) : Prop :=
  forall w, exists evs, trace (snd (m w)) = trace w ++ evs.

(** ** The data of the concrete runs *)

Definition balanced : SpeedProfile :=
  mkSpeedProfile 1 "fan" "Balanced" false
    [mkSpeedStep 20 30; mkSpeedStep 40 60; mkSpeedStep 60 100].

Definition fixed75 : SpeedProfile :=
  mkSpeedProfile 2 "fan" "Fixed" true [mkSpeedStep 20 75].

Definition tied : SpeedProfile :=
  mkSpeedProfile 3 "fan" "Tied" false
    [mkSpeedStep 20 30; mkSpeedStep 40 50; mkSpeedStep 40 55; mkSpeedStep 60 100].

Definition silent_pump : SpeedProfile :=
  mkSpeedProfile 4 "pump" "Silent" false [mkSpeedStep 20 60; mkSpeedStep 50 100].

Definition late : SpeedProfile :=
  mkSpeedProfile 5 "fan" "Late" false [mkSpeedStep 50 80; mkSpeedStep 30 40].

Definition the_settings : SettingsInteractor :=
  mkSettings (fun key => String.eqb key "settings_load_last_profile")
             (fun key => if String.eqb key "settings_refresh_interval" then 3 else 0).

Definition the_conf : Conf :=
  mkConf 20 60 100
    [("settings_load_last_profile", VBool false); ("settings_refresh_interval", VInt 3)].

(** The fan tracks the profile [p], applied last; the refresh runs. *)
Definition tracking (p : SpeedProfile) : world :=
  mkWorld [balanced; fixed75; tied; silent_pump] [mkCurrentSpeedProfile "fan" p]
          the_settings ∅ true (Some (mkRefresh 3000 0)) 0 [].

(** The same with [_should_update_fan_speed] off. *)
Definition idle (p : SpeedProfile) : world :=
  with_should_update_fan_speed false (tracking p).

Definition warm : Status := mkStatus (Finite (45 # 1)) (Some 1200) (Some 2000).

Definition cold : Status := mkStatus (Finite (10 # 1)) (Some 1200) (Some 2000).

(** ** What the further properties speak of *)

(** The statuses that the trace shows as published, oldest first. *)
Fixpoint published (t : list event) : list Status :=
  match t with
  | [] => []
  | View (refresh_status status) :: t' => status :: published t'
  | _ :: t' => published t'
  end.

(** The profiles whose apply succeeded, in the order of the deliveries. *)
Fixpoint applied (ds : list delivery) : list SpeedProfile :=
  match ds with
  | [] => []
  | SetSpeedProfileDone p (Returned _) :: ds' => p :: applied ds'
  | _ :: ds' => applied ds'
  end.

(** The requests to apply a profile that the trace shows. *)
Fixpoint apply_requests (t : list event) : list (string * list (Z * Z)) :=
  match t with
  | [] => []
  | DeviceSetSpeedProfile c data :: t' => (c, data) :: apply_requests t'
  | _ :: t' => apply_requests t'
  end.

(** The method leaves the selection of profiles as it is. *)
Definition keeps_selected {A : Type} (m : M A) : Prop :=
  forall w, _profile_selected (snd (m w)) = _profile_selected w.


(** The fan tracks nothing yet: the table holds a pump row only. *)
Definition pump_only : world :=
  with_current_speed_profile_table [mkCurrentSpeedProfile "pump" silent_pump]
                                   (tracking balanced).



(** Running the primitives of the state monad. *)
Ltac run :=
  cbv [view LOG emit modify gets ret raise bind logged
       with_trace with_clock with_refresh with_should_update_fan_speed
       with_current_speed_profile_table];
  cbn [speed_profile_table current_speed_profile_table _settings_interactor
       _profile_selected _should_update_fan_speed refresh clock trace fst snd].

(** The same, with the selection of profiles. *)
Ltac run_handlers :=
  cbv [view LOG emit modify gets ret raise bind logged
       with_trace with_clock with_refresh with_should_update_fan_speed
       with_current_speed_profile_table with_profile_selected];
  cbn [speed_profile_table current_speed_profile_table _settings_interactor
       _profile_selected _should_update_fan_speed refresh clock trace fst snd].

(** ** The comparison *)

Lemma float_ge_int_Finite (q : Q) (t : Z) :
  float_ge_int (Finite q) t = true <-> (inject_Z t <= q)%Q.
Proof. simpl. apply Qle_bool_iff. Qed.

Lemma float_ge_int_NaN (t : Z) : float_ge_int NaN t = false.
Proof. reflexivity. Qed.

Lemma qualifies_down (liquid : pyfloat) (s s' : SpeedStep) :
  temperature s' <= temperature s -> qualifies liquid s -> qualifies liquid s'.
Proof.
  unfold qualifies. destruct liquid as [q| | |]; simpl; try done.
  intros Hle Hq. apply Qle_bool_iff. apply Qle_bool_iff in Hq.
  apply Qle_trans with (inject_Z (temperature s)); [|exact Hq].
  rewrite <- Zle_Qle. exact Hle.
Qed.



(** ** The scan of the steps *)






(** ** Ascending steps *)




(** ** [_update_status] *)




(** C6: while [_should_update_fan_speed] is off, [_update_status] passes
    the status to the view exactly as it received it. *)
Theorem update_status_passes_through_when_not_tracking (w : world) (status : Status) :
  _should_update_fan_speed w = false ->
  _update_status (Some status) w =
  (Returned tt, logged (View (refresh_status status)) w).
Proof.
  intros Hflag. unfold _update_status, bind, gets. rewrite Hflag. reflexivity.
Qed.


(** ** The table of current profiles *)

Lemma upsert_cons (p : SpeedProfile) (x : CurrentSpeedProfile)
    (t : list CurrentSpeedProfile) :
  upsert p (x :: t) =
  if decide (csp_channel x = channel p)
  then mkCurrentSpeedProfile (csp_channel x) p :: t
  else x :: upsert p t.
Proof.
  unfold upsert. simpl. destruct (decide (csp_channel x = channel p)); [done|].
  destruct (list_find _ t) as [[i current]|]; reflexivity.
Qed.

Lemma upsert_channels (p : SpeedProfile) (t : list CurrentSpeedProfile) :
  csp_channel <$> upsert p t =
  if decide (channel p ∈ csp_channel <$> t)
  then csp_channel <$> t
  else (csp_channel <$> t) ++ [channel p].
Proof.
  induction t as [|x t IH]; [reflexivity|].
  rewrite upsert_cons.
  destruct (decide (csp_channel x = channel p)) as [Heq|Hne].
  - rewrite decide_True; [reflexivity|]. rewrite fmap_cons, Heq. by left.
  - rewrite !fmap_cons, IH.
    destruct (decide (channel p ∈ csp_channel <$> t)) as [Hin|Hout].
    + rewrite decide_True; [reflexivity|]. by right.
    + rewrite decide_False; [reflexivity|].
      intros [Heq|Hin]%elem_of_cons; [by destruct Hne|by destruct Hout].
Qed.

Lemma upsert_one_row_per_channel (p : SpeedProfile) (t : list CurrentSpeedProfile) :
  one_row_per_channel t -> one_row_per_channel (upsert p t).
Proof.
  unfold one_row_per_channel. intros Hnd. rewrite upsert_channels.
  destruct (decide (channel p ∈ csp_channel <$> t)) as [Hin|Hout]; [exact Hnd|].
  apply NoDup_app. split; [exact Hnd|]. split; [|apply NoDup_singleton].
  intros c Hc Hc'. apply list_elem_of_singleton in Hc' as ->. by destruct Hout.
Qed.

Lemma rows_of_absent (c : string) (t : list CurrentSpeedProfile) :
  c ∉ csp_channel <$> t -> rows_of c t = [].
Proof.
  unfold rows_of. induction t as [|x t IH]; [done|].
  rewrite fmap_cons, not_elem_of_cons. intros [Hne Hout].
  rewrite filter_cons_False; [by apply IH|]. congruence.
Qed.

Lemma rows_of_upsert (p : SpeedProfile) (t : list CurrentSpeedProfile) :
  one_row_per_channel t ->
  rows_of (channel p) (upsert p t) = [mkCurrentSpeedProfile (channel p) p].
Proof.
  unfold one_row_per_channel. induction t as [|x t IH]; intros Hnd.
  - unfold upsert, rows_of. simpl. by rewrite filter_cons_True.
  - rewrite upsert_cons. rewrite fmap_cons in Hnd. apply NoDup_cons in Hnd as [Hx Hnd].
    destruct (decide (csp_channel x = channel p)) as [Heq|Hne].
    + unfold rows_of. rewrite filter_cons_True by exact Heq.
      rewrite Heq in Hx |- *. f_equal. by apply rows_of_absent.
    + unfold rows_of. rewrite filter_cons_False by exact Hne. by apply IH.
Qed.

Lemma rows_of_upsert_other (p : SpeedProfile) (c : string)
    (t : list CurrentSpeedProfile) :
  c <> channel p -> rows_of c (upsert p t) = rows_of c t.
Proof.
  intros Hc. unfold rows_of. induction t as [|x t IH].
  - unfold upsert. simpl. rewrite filter_cons_False; [done|]. simpl. congruence.
  - rewrite upsert_cons. destruct (decide (csp_channel x = channel p)) as [Heq|Hne].
    + rewrite !filter_cons_False; [done| |]; simpl; congruence.
    + destruct (decide (csp_channel x = c)) as [Hxc|Hxc].
      * rewrite !filter_cons_True by exact Hxc. by rewrite IH.
      * rewrite !filter_cons_False by exact Hxc. exact IH.
Qed.

Lemma upsert_idempotent (p : SpeedProfile) (t : list CurrentSpeedProfile) :
  upsert p (upsert p t) = upsert p t.
Proof.
  induction t as [|x t IH].
  - unfold upsert. simpl. rewrite decide_True; done.
  - rewrite upsert_cons. destruct (decide (csp_channel x = channel p)) as [Heq|Hne].
    + rewrite upsert_cons. simpl. rewrite decide_True; done.
    + rewrite upsert_cons, decide_False by exact Hne. by rewrite IH.
Qed.

Lemma _update_current_speed_profile_eq (p : SpeedProfile) (w : world) :
  _update_current_speed_profile p w =
  (Returned tt,
   logged (View (set_statusbar_text (capitalize (channel p) +:+ " cooling profile applied")))
          (with_current_speed_profile_table (upsert p (current_speed_profile_table w)) w)).
Proof.
  unfold _update_current_speed_profile, get_or_none, bind, gets, upsert.
  destruct (list_find _ (current_speed_profile_table w)) as [[i current]|];
    reflexivity.
Qed.

Lemma set_speed_profile_done_ok (p : SpeedProfile) (w : world) :
  set_speed_profile_done p (Returned tt) w = _update_current_speed_profile p w.
Proof.
  unfold set_speed_profile_done, subscribe, bind. simpl.
  unfold _set_speed_profile_on_next, bind.
  rewrite _update_current_speed_profile_eq. reflexivity.
Qed.

(** C2: from a table with at most one row per channel, after one
    successful apply of a profile, and after a second one, the table holds
    exactly one row for the profile's channel and that row carries the
    profile; the second apply leaves the table as the first left it.  The
    first apply appends a row when the channel has none and overwrites the
    channel's row in place otherwise; the rows of the other channels
    stay. *)
Theorem apply_twice_keeps_one_row (p : SpeedProfile) (w : world) :
  one_row_per_channel (current_speed_profile_table w) ->
  let w1 := exec (set_speed_profile_done p (Returned tt)) w in
  let w2 := exec (set_speed_profile_done p (Returned tt)) w1 in
  rows_of (channel p) (current_speed_profile_table w1)
    = [mkCurrentSpeedProfile (channel p) p] /\
  rows_of (channel p) (current_speed_profile_table w2)
    = [mkCurrentSpeedProfile (channel p) p] /\
  current_speed_profile_table w2 = current_speed_profile_table w1 /\
  one_row_per_channel (current_speed_profile_table w2) /\
  (forall c, c <> channel p ->
     rows_of c (current_speed_profile_table w2) = rows_of c (current_speed_profile_table w)) /\
  match list_find (fun row => csp_channel row = channel p) (current_speed_profile_table w) with
  | None =>
      current_speed_profile_table w1
      = current_speed_profile_table w ++ [mkCurrentSpeedProfile (channel p) p]
  | Some (i, _) =>
      current_speed_profile_table w1
      = <[i := mkCurrentSpeedProfile (channel p) p]> (current_speed_profile_table w)
      /\ length (current_speed_profile_table w1) = length (current_speed_profile_table w)
  end.
Proof.
  intros Hone w1 w2. subst w1 w2. unfold exec.
  rewrite !set_speed_profile_done_ok, !_update_current_speed_profile_eq. simpl.
  rewrite upsert_idempotent.
  repeat split.
  - by apply rows_of_upsert.
  - by apply rows_of_upsert.
  - by apply upsert_one_row_per_channel.
  - intros c Hc. by apply rows_of_upsert_other.
  - unfold upsert.
    destruct (list_find _ (current_speed_profile_table w)) as [[i current]|] eqn:Hfind;
      [|reflexivity].
    apply list_find_Some in Hfind as (_ & -> & _).
    split; [reflexivity|]. apply length_insert.
Qed.

(** ** The deliveries of the GTK loop *)

Lemma bind_returned {A B : Type} (m : M A) (k : A -> M B) (w w1 : world) (a : A) :
  m w = (Returned a, w1) -> bind m k w = k a w1.
Proof. intros H. unfold bind. by rewrite H. Qed.

Lemma bind_assoc {A B C : Type} (m : M A) (k : A -> M B) (k' : B -> M C) (w : world) :
  bind (bind m k) k' w = bind m (fun a => bind (k a) k') w.
Proof. unfold bind. destruct (m w) as [[a|e] w1]; reflexivity. Qed.

Lemma with_trace_same (w : world) : with_trace (trace w ++ []) w = w.
Proof. destruct w. unfold with_trace. simpl. by rewrite app_nil_r. Qed.

Lemma fetch_times_app (t1 t2 : list event) :
  fetch_times (t1 ++ t2) = fetch_times t1 ++ fetch_times t2.
Proof.
  induction t1 as [|e t1 IH]; [reflexivity|].
  destruct e; simpl; by rewrite IH.
Qed.

Lemma _update_status_effect (status : option Status) (w : world) :
  exists evs, _update_status status w = (Returned tt, with_trace (trace w ++ evs) w)
              /\ fetch_times evs = [].
Proof.
  destruct status as [status|].
  - unfold _update_status, get_or_none, bind, gets.
    destruct (_should_update_fan_speed w); cbv beta iota.
    + destruct (list_find _ (current_speed_profile_table w)) as [[i row]|];
        [destruct (last _)|]; eexists [_]; split; reflexivity.
    + eexists [_]; split; reflexivity.
  - exists []. by rewrite with_trace_same.
Qed.

Lemma set_speed_profile_done_failed (p : SpeedProfile) (e : exn) (w : world) :
  set_speed_profile_done p (Raised e) w =
  (Returned tt,
   with_trace (trace w ++ [Log EXCEPTION ("Set cooling error: " +:+ str_exn e);
                           View (set_statusbar_text
                                   ("Error applying " +:+ channel p +:+ " speed profile!"))])
              w).
Proof.
  unfold set_speed_profile_done, subscribe, _set_speed_profile_on_error.
  cbn [SetSpeedProfileInteractor_execute throw items ending for_each].
  run. by rewrite <- app_assoc.
Qed.

Lemma set_speed_profile_done_effect (p : SpeedProfile) (answer : outcome unit)
    (w : world) :
  exists w', set_speed_profile_done p answer w = (Returned tt, w')
             /\ refresh w' = refresh w
             /\ fetch_times (trace w') = fetch_times (trace w).
Proof.
  destruct answer as [[]|e].
  - rewrite set_speed_profile_done_ok, _update_current_speed_profile_eq.
    eexists. split; [reflexivity|]. split; [reflexivity|].
    simpl. rewrite fetch_times_app. simpl. by rewrite app_nil_r.
  - rewrite set_speed_profile_done_failed.
    eexists. split; [reflexivity|]. split; [reflexivity|].
    simpl. rewrite fetch_times_app. simpl. by rewrite app_nil_r.
Qed.

Lemma apply_requests_app (t1 t2 : list event) :
  apply_requests (t1 ++ t2) = apply_requests t1 ++ apply_requests t2.
Proof.
  induction t1 as [|e t1 IH]; [reflexivity|].
  destruct e; simpl; by rewrite IH.
Qed.

Lemma published_app (t1 t2 : list event) :
  published (t1 ++ t2) = published t1 ++ published t2.
Proof.
  induction t1 as [|e t1 IH]; [reflexivity|].
  destruct e as [[]| | | |]; simpl; by rewrite IH.
Qed.

Lemma set_speed_profile_done_published (p : SpeedProfile) (answer : outcome unit)
    (w : world) :
  published (trace (snd (set_speed_profile_done p answer w))) = published (trace w).
Proof.
  destruct answer as [[]|e].
  - rewrite set_speed_profile_done_ok, _update_current_speed_profile_eq. simpl.
    rewrite published_app. simpl. by rewrite app_nil_r.
  - rewrite set_speed_profile_done_failed. simpl.
    rewrite published_app. simpl. by rewrite app_nil_r.
Qed.

(** A tick of a live subscription: the selector raises when it reads
    [rx.defer], so that the device is not asked, the handler of
    [catch_exception] is not reached, and [on_error] ends the
    subscription. *)
Lemma refresh_tick_eq (answer : outcome (option Status)) (w : world)
    (sub : refresh_subscription) :
  refresh w = Some sub ->
  refresh_tick answer w =
  (Returned tt,
   with_refresh None
     (with_trace (trace w ++ [Log DEBUG "GetStatusInteractor.execute()";
                              Log EXCEPTION
                                  "Refresh error: module 'rx' has no attribute 'defer'"])
                 w)).
Proof.
  intros Hsub. unfold refresh_tick. run. rewrite Hsub.
  unfold flat_map_item, _get_status, GetStatusInteractor_execute, rx_defer,
    refresh_on_error.
  run. by rewrite <- app_assoc.
Qed.

Lemma refresh_tick_ended (answer : outcome (option Status)) (w : world) :
  refresh w = None -> refresh_tick answer w = (Returned tt, w).
Proof. intros Hsub. unfold refresh_tick, bind, gets. by rewrite Hsub. Qed.

Lemma main_loop_after_the_end (ds : list delivery) (w : world) :
  refresh w = None ->
  exists w', main_loop ds w = (Returned tt, w')
             /\ refresh w' = None
             /\ fetch_times (trace w') = fetch_times (trace w)
             /\ published (trace w') = published (trace w).
Proof.
  revert w. induction ds as [|d ds IH]; intros w Hsub; [by exists w|].
  unfold main_loop in *. simpl for_each. unfold bind at 1.
  destruct d as [answer|p answer]; simpl.
  - rewrite (refresh_tick_ended answer w Hsub). by apply IH.
  - pose proof (set_speed_profile_done_published p answer w) as Hp1.
    destruct (set_speed_profile_done_effect p answer w) as (w1 & Hrun & Hsub1 & Ht1).
    rewrite Hrun in Hp1 |- *. simpl in Hp1. rewrite Hsub in Hsub1.
    destruct (IH w1 Hsub1) as (w' & -> & Hsub' & Ht' & Hp').
    exists w'. split; [reflexivity|]. split; [exact Hsub'|].
    split; [by rewrite Ht', Ht1|by rewrite Hp', Hp1].
Qed.

(** The subscription after a run: as it was when no tick was delivered,
    and ended otherwise. *)
Lemma main_loop_refresh (ds : list delivery) (w : world) :
  refresh (snd (main_loop ds w))
  = match ticks ds with
    | O => refresh w
    | S _ => None
    end.
Proof.
  revert w. induction ds as [|d ds IH]; intros w; [reflexivity|].
  unfold main_loop in *. simpl for_each. unfold bind at 1.
  destruct d as [answer|p answer]; simpl.
  - destruct (refresh w) as [sub|] eqn:Hsub.
    + rewrite (refresh_tick_eq answer w sub Hsub).
      match goal with
      | |- context [for_each deliver ds ?w0] =>
          destruct (main_loop_after_the_end ds w0 eq_refl) as (w' & Hrun & Hend & _)
      end.
      unfold main_loop in Hrun. by rewrite Hrun.
    + rewrite (refresh_tick_ended answer w Hsub).
      destruct (main_loop_after_the_end ds w Hsub) as (w' & Hrun & Hend & _).
      unfold main_loop in Hrun. by rewrite Hrun.
  - destruct (set_speed_profile_done_effect p answer w) as (w1 & -> & Hsub1 & _).
    by rewrite IH, Hsub1.
Qed.

Lemma refresh_tick_keeps (answer : outcome (option Status)) (w : world) :
  exists w', refresh_tick answer w = (Returned tt, w')
             /\ current_speed_profile_table w' = current_speed_profile_table w
             /\ _should_update_fan_speed w' = _should_update_fan_speed w
             /\ _profile_selected w' = _profile_selected w.
Proof.
  destruct (refresh w) as [sub|] eqn:Hsub.
  - rewrite (refresh_tick_eq answer w sub Hsub). eexists. by repeat split.
  - rewrite (refresh_tick_ended answer w Hsub). by exists w.
Qed.

Lemma deliver_table (d : delivery) (w : world) :
  exists w', deliver d w = (Returned tt, w')
             /\ current_speed_profile_table w'
                = match d with
                  | SetSpeedProfileDone p (Returned _) =>
                      upsert p (current_speed_profile_table w)
                  | _ => current_speed_profile_table w
                  end
             /\ _should_update_fan_speed w' = _should_update_fan_speed w.
Proof.
  destruct d as [answer|p [[]|e]]; simpl.
  - destruct (refresh_tick_keeps answer w) as (w' & Hrun & Ht & Hf & _).
    by exists w'.
  - rewrite set_speed_profile_done_ok, _update_current_speed_profile_eq.
    eexists. split; [reflexivity|]. by split.
  - rewrite set_speed_profile_done_failed. eexists. split; [reflexivity|]. by split.
Qed.

Lemma main_loop_table (ds : list delivery) (w : world) :
  exists w', main_loop ds w = (Returned tt, w')
             /\ current_speed_profile_table w'
                = fold_left (fun t p => upsert p t) (applied ds)
                            (current_speed_profile_table w)
             /\ _should_update_fan_speed w' = _should_update_fan_speed w.
Proof.
  revert w. induction ds as [|d ds IH]; intros w; [by exists w|].
  unfold main_loop in *. simpl for_each. unfold bind at 1.
  destruct (deliver_table d w) as (w1 & -> & Ht1 & Hf1).
  destruct (IH w1) as (w' & -> & Ht' & Hf').
  exists w'. split; [reflexivity|]. rewrite Ht', Ht1, Hf', Hf1. split; [|reflexivity].
  destruct d as [answer|p [[]|e]]; reflexivity.
Qed.

(** C3, as the code has it: when the apply of a profile fails, the
    exception is logged and the status bar shows
    "Error applying <channel> speed profile!" with the channel of the
    profile; the table of current profiles and every other part of the
    state but the trace stay as they were, the refresh subscription among
    them; and whatever is delivered afterwards leaves the table and the
    subscription as it would have left them without the failure. *)
Theorem failed_apply_changes_no_table_and_keeps_refresh (p : SpeedProfile) (e : exn)
    (w : world) (ds : list delivery) :
  let w1 :=
    with_trace (trace w ++ [Log EXCEPTION ("Set cooling error: " +:+ str_exn e);
                            View (set_statusbar_text
                                    ("Error applying " +:+ channel p +:+ " speed profile!"))])
               w in
  set_speed_profile_done p (Raised e) w = (Returned tt, w1) /\
  current_speed_profile_table w1 = current_speed_profile_table w /\
  refresh w1 = refresh w /\
  _should_update_fan_speed w1 = _should_update_fan_speed w /\
  current_speed_profile_table (exec (main_loop ds) w1)
  = current_speed_profile_table (exec (main_loop ds) w) /\
  refresh (exec (main_loop ds) w1) = refresh (exec (main_loop ds) w).
Proof.
  intros w1. split; [apply set_speed_profile_done_failed|].
  split; [reflexivity|]. split; [reflexivity|]. split; [reflexivity|].
  unfold exec. split.
  - destruct (main_loop_table ds w1) as (w2 & Hrun2 & Ht2 & _).
    destruct (main_loop_table ds w) as (w3 & Hrun3 & Ht3 & _).
    rewrite Hrun2, Hrun3. simpl. by rewrite Ht2, Ht3.
  - by rewrite !main_loop_refresh.
Qed.

(** C4, on the code as it stands: on the first tick of a live
    subscription, whatever the device would answer, [execute()] raises
    [AttributeError] when it reads [rx.defer]; the exception leaves the
    selector of [flat_map], out of reach of [catch_exception], so the
    device is not asked, nothing is shown to the user, [on_error] logs
    "Refresh error" and the subscription is over: in whatever is delivered
    afterwards no tick asks the device and no status is published. *)
Theorem refresh_ends_on_the_first_tick (w : world) (sub : refresh_subscription)
    (answer : outcome (option Status)) (ds : list delivery) :
  refresh w = Some sub ->
  exists w1,
    refresh_tick answer w = (Returned tt, w1)
    /\ trace w1
       = trace w ++ [Log DEBUG "GetStatusInteractor.execute()";
                     Log EXCEPTION "Refresh error: module 'rx' has no attribute 'defer'"]
    /\ refresh w1 = None
    /\ exists w2, main_loop ds w1 = (Returned tt, w2)
                  /\ refresh w2 = None
                  /\ fetch_times (trace w2) = fetch_times (trace w)
                  /\ published (trace w2) = published (trace w).
Proof.
  intros Hsub. rewrite (refresh_tick_eq answer w sub Hsub).
  eexists. split; [reflexivity|]. split; [reflexivity|]. split; [reflexivity|].
  match goal with
  | |- context [main_loop ds ?w0] =>
      destruct (main_loop_after_the_end ds w0 eq_refl) as (w2 & Hrun & Hend & Ht & Hp)
  end.
  exists w2. split; [exact Hrun|]. split; [exact Hend|].
  rewrite Ht, Hp. simpl. rewrite fetch_times_app, published_app. simpl.
  by rewrite !app_nil_r.
Qed.

(** C10: on [None], the value that stands for a failed fetch,
    [_update_status] calls nothing and leaves the state as it is; the
    handler of the failed fetch substitutes the observable of that one
    [None], whose delivery to [_update_status] publishes nothing; and a
    tick on which the device would fail publishes no status. *)
Theorem update_status_none_is_skipped (w : world) (e : exn) (on_error : exn -> M unit) :
  _update_status None w = (Returned tt, w) /\
  fst (_log_exception_return_empty_observable e w) = Returned (just None) /\
  subscribe _update_status on_error (just None) w = (Returned tt, w) /\
  exists evs,
    trace (exec (refresh_tick (Raised e)) w) = trace w ++ evs
    /\ forallb (fun ev => negb (is_refresh_status ev)) evs = true.
Proof.
  split; [reflexivity|]. split; [reflexivity|]. split; [reflexivity|].
  unfold exec. destruct (refresh w) as [sub|] eqn:Hsub.
  - rewrite (refresh_tick_eq (Raised e) w sub Hsub). eexists. split; reflexivity.
  - rewrite (refresh_tick_ended (Raised e) w Hsub). exists []. by rewrite app_nil_r.
Qed.

(** ** The trace only grows *)

Create HintDb extends.

Lemma extends_ret {A : Type} (a : A) : extends_trace (ret a).
Proof. intros w. exists []. simpl. by rewrite app_nil_r. Qed.

Lemma extends_raise {A : Type} (e : exn) : extends_trace (@raise A e).
Proof. intros w. exists []. simpl. by rewrite app_nil_r. Qed.

Lemma extends_gets {A : Type} (f : world -> A) : extends_trace (gets f).
Proof. intros w. exists []. simpl. by rewrite app_nil_r. Qed.

Lemma extends_emit (e : event) : extends_trace (emit e).
Proof. intros w. by exists [e]. Qed.

Lemma extends_modify (f : world -> world) :
  (forall w, trace (f w) = trace w) -> extends_trace (modify f).
Proof. intros Hf w. exists []. simpl. by rewrite Hf, app_nil_r. Qed.

Lemma extends_bind {A B : Type} (m : M A) (k : A -> M B) :
  extends_trace m -> (forall a, extends_trace (k a)) -> extends_trace (bind m k).
Proof.
  intros Hm Hk w. unfold bind. destruct (Hm w) as [evs1 H1].
  destruct (m w) as [[a|e] w1]; simpl in H1.
  - destruct (Hk a w1) as [evs2 H2]. exists (evs1 ++ evs2).
    by rewrite H2, H1, app_assoc.
  - by exists evs1.
Qed.

Lemma extends_for_each {A : Type} (f : A -> M unit) (l : list A) :
  (forall a, extends_trace (f a)) -> extends_trace (for_each f l).
Proof.
  intros Hf. induction l as [|a l IH]; simpl.
  - apply extends_ret.
  - apply extends_bind; [apply Hf|]. intros _. exact IH.
Qed.

Lemma extends_flat_map_item {A : Type} (selector : M (Observable A))
    (on_next : A -> M unit) (on_error : exn -> M unit) :
  extends_trace selector ->
  (forall inner, extends_trace (subscribe on_next on_error inner)) ->
  (forall e, extends_trace (on_error e)) ->
  extends_trace (flat_map_item selector on_next on_error).
Proof.
  intros Hs Hn He w. unfold flat_map_item. destruct (Hs w) as [evs1 H1].
  destruct (selector w) as [[inner|e] w1]; simpl in H1.
  - destruct (Hn inner w1) as [evs2 H2]. exists (evs1 ++ evs2).
    by rewrite H2, H1, app_assoc.
  - destruct (He e w1) as [evs2 H2]. exists (evs1 ++ evs2).
    by rewrite H2, H1, app_assoc.
Qed.

#[local] Hint Resolve extends_ret extends_raise extends_gets extends_emit
  extends_bind extends_for_each : extends.

Lemma extends_subscribe {A : Type} (on_next : A -> M unit) (on_error : exn -> M unit)
    (source : Observable A) :
  (forall a, extends_trace (on_next a)) -> (forall e, extends_trace (on_error e)) ->
  extends_trace (subscribe on_next on_error source).
Proof.
  intros Hn He. unfold subscribe. apply extends_bind; [auto with extends|].
  intros _. destruct (ending source); auto with extends.
Qed.

Lemma extends_update_status (status : option Status) :
  extends_trace (_update_status status).
Proof.
  intros w. destruct (_update_status_effect status w) as (evs & -> & _).
  by exists evs.
Qed.

Lemma extends_set_speed_profile_done (p : SpeedProfile) (answer : outcome unit) :
  extends_trace (set_speed_profile_done p answer).
Proof.
  intros w. destruct answer as [[]|e].
  - rewrite set_speed_profile_done_ok, _update_current_speed_profile_eq. by eexists.
  - rewrite set_speed_profile_done_failed. by eexists.
Qed.

Lemma extends_get_status (answer : outcome (option Status)) :
  extends_trace (_get_status answer).
Proof.
  unfold _get_status, GetStatusInteractor_execute, rx_defer, LOG.
  apply extends_bind.
  - apply extends_bind; auto with extends.
  - intros source. unfold catch_exception.
    destruct (ending source); [auto with extends|].
    unfold _log_exception_return_empty_observable, LOG, view.
    apply extends_bind; [|auto with extends].
    repeat (apply extends_bind; [auto with extends|]; intros _).
    auto with extends.
Qed.

Lemma extends_refresh_on_error (e : exn) : extends_trace (refresh_on_error e).
Proof.
  unfold refresh_on_error, LOG. apply extends_bind; [auto with extends|].
  intros _. by apply extends_modify.
Qed.

Lemma extends_refresh_tick (answer : outcome (option Status)) :
  extends_trace (refresh_tick answer).
Proof.
  unfold refresh_tick. apply extends_bind; [auto with extends|].
  intros [sub|]; [|auto with extends].
  apply extends_bind; [by apply extends_modify|]. intros _.
  apply extends_flat_map_item.
  - apply extends_get_status.
  - intros inner. apply extends_subscribe;
      [apply extends_update_status|apply extends_refresh_on_error].
  - apply extends_refresh_on_error.
Qed.

Lemma extends_main_loop (ds : list delivery) : extends_trace (main_loop ds).
Proof.
  apply extends_for_each. intros [answer|p answer]; simpl.
  - apply extends_refresh_tick.
  - apply extends_set_speed_profile_done.
Qed.

Lemma extends_init_speed_profiles_channel (c : ChannelType) :
  extends_trace (_init_speed_profiles_channel c).
Proof.
  unfold _init_speed_profiles_channel, _get_profile_list, get_or_none,
    _set_speed_profile, view.
  apply extends_bind; [auto with extends|]. intros data.
  apply extends_bind; [auto with extends|]. intros [|].
  - apply extends_bind; [|auto with extends].
    apply extends_bind; [by apply extends_modify|]. intros _.
    apply extends_bind; [auto with extends|]. intros [[i current]|];
      [|auto with extends].
    destruct data as [|item0 data]; [auto with extends|].
    unfold CurrentSpeedProfile_profile.
    apply extends_bind.
    + apply extends_bind; [auto with extends|]. intros [found|]; auto with extends.
    + intros p. destruct (list_find _ (item0 :: data)) as [[j item]|];
        auto with extends.
  - apply extends_bind; auto with extends.
Qed.

Lemma extends_rest_of_start (conf : Conf) :
  extends_trace (_init_settings conf ;; _start_refresh ;; _check_new_version).
Proof.
  unfold _init_settings, _start_refresh, _check_new_version, view, LOG.
  apply extends_bind.
  - apply extends_bind; auto with extends.
  - intros _. apply extends_bind.
    + apply extends_bind; [auto with extends|]. intros _.
      apply extends_bind; [auto with extends|]. intros seconds.
      by apply extends_modify.
    + auto with extends.
Qed.

(** ** Start-up *)

Lemma init_speed_profiles_channel_listed (c : ChannelType) (w : world)
    (i : nat) (row : CurrentSpeedProfile) :
  get_bool (_settings_interactor w) "settings_load_last_profile" = true ->
  list_find (fun r => csp_channel r = ChannelType_value c)
            (current_speed_profile_table w) = Some (i, row) ->
  profile row ∈ speed_profile_table w ->
  channel (profile row) = ChannelType_value c ->
  exists (j : nat) (shown : string) (data : list (Z * string)),
    fst (_get_profile_list c w) = Returned data
    /\ data !! j = Some (id (profile row), shown)
    /\ (forall k item, data !! k = Some item -> (k < j)%nat -> item.1 <> id (profile row))
    /\ _init_speed_profiles_channel c w
       = (Returned tt,
          logged (View (refresh_profile_combobox c
                          (data ++ [(_ADD_NEW_PROFILE_INDEX,
                                     "<span style='italic' alpha='50%'>Add new profile...</span>")])
                          (Some j)))
            (logged (DeviceSetSpeedProfile (channel (profile row))
                                           (_get_profile_data (profile row)))
                    (with_should_update_fan_speed true w))).
Proof.
  intros Hload Hrow Hin Hchan.
  unfold _init_speed_profiles_channel, _get_profile_list, get_or_none,
    CurrentSpeedProfile_profile, _set_speed_profile.
  run. rewrite Hload. run.
  match goal with
  | |- context [@list_find ?A ?P ?D (current_speed_profile_table w)] =>
      assert (Hrow' : @list_find A P D (current_speed_profile_table w) = Some (i, row))
        by exact Hrow;
      rewrite Hrow'
  end.
  match goal with
  | |- context [match ?d with [] => _ | _ :: _ => _ end] =>
      remember d as data eqn:Hdata
  end.
  assert (Hmem : (id (profile row), name (profile row)) ∈ data).
  { rewrite Hdata. apply list_elem_of_In, List.in_map_iff. exists (profile row).
    split; [done|]. apply List.filter_In. split; [by apply list_elem_of_In|].
    apply String.eqb_eq. exact Hchan. }
  assert (Hfound : is_Some (list_find (fun item : Z * string => item.1 = id (profile row))
                                      data)).
  { by apply list_find_elem_of with (id (profile row), name (profile row)). }
  destruct Hfound as [[j [pid shown]] Hfound].
  assert (Hfk : is_Some (list_find (fun p0 : SpeedProfile => id p0 = id (profile row))
                                   (speed_profile_table w))).
  { by apply list_find_elem_of with (profile row). }
  destruct Hfk as [[k p0] Hfk].
  destruct data as [|item0 rest]; [by apply elem_of_nil in Hmem|].
  run.
  match goal with
  | |- context [@list_find ?A ?P ?D (speed_profile_table w)] =>
      assert (Hfk' : @list_find A P D (speed_profile_table w) = Some (k, p0))
        by exact Hfk;
      rewrite Hfk'
  end.
  match goal with
  | |- context [@list_find ?A ?P ?D (item0 :: rest)] =>
      assert (Hfound' : @list_find A P D (item0 :: rest) = Some (j, (pid, shown)))
        by exact Hfound;
      rewrite Hfound'
  end.
  apply list_find_Some in Hfound as (Hj & Hid & Hfirst). simpl in Hid. subst pid.
  exists j, shown. eexists. split; [reflexivity|]. split; [exact Hj|].
  split; [|reflexivity].
  intros k' item Hk Hlt. by apply (Hfirst k' item).
Qed.

Lemma init_speed_profiles_fan (profiles : list SpeedProfile)
    (current : list CurrentSpeedProfile) (settings : SettingsInteractor)
    (i : nat) (row : CurrentSpeedProfile) :
  get_bool settings "settings_load_last_profile" = true ->
  list_find (fun r => csp_channel r = ChannelType_value FAN) current = Some (i, row) ->
  profile row ∈ profiles ->
  channel (profile row) = ChannelType_value FAN ->
  exists w1 combobox,
    _init_speed_profiles_channel FAN (Presenter_init profiles current settings)
    = (Returned tt, w1)
    /\ trace w1 = [Log DEBUG "init Presenter ";
                   DeviceSetSpeedProfile (channel (profile row))
                                         (_get_profile_data (profile row));
                   View combobox].
Proof.
  intros Hload Hrow Hin Hfan.
  destruct (init_speed_profiles_channel_listed FAN
              (Presenter_init profiles current settings) i row Hload Hrow Hin Hfan)
    as (j & shown & data & _ & _ & _ & Hrun).
  eexists _, _. split; [exact Hrun|reflexivity].
Qed.

(** C8: at start-up, with the setting [settings_load_last_profile] on and
    a row for the fan in the table of current profiles whose profile is a
    fan profile of the profile table, the trace of start-up and of
    whatever is delivered afterwards begins with the log record of
    [__init__] followed by the request that applies the persisted profile:
    no status is published before that request. *)
Theorem startup_applies_last_fan_profile_first (conf : Conf)
    (profiles : list SpeedProfile) (current : list CurrentSpeedProfile)
    (settings : SettingsInteractor) (i : nat) (row : CurrentSpeedProfile)
    (ds : list delivery) :
  get_bool settings "settings_load_last_profile" = true ->
  list_find (fun r => csp_channel r = ChannelType_value FAN) current = Some (i, row) ->
  profile row ∈ profiles ->
  channel (profile row) = ChannelType_value FAN ->
  exists before after,
    trace (exec (on_start conf ;; main_loop ds)
                (Presenter_init profiles current settings))
    = before
      ++ DeviceSetSpeedProfile (channel (profile row)) (_get_profile_data (profile row))
      :: after
    /\ forallb (fun e => negb (is_refresh_status e)) before = true.
Proof.
  intros Hload Hrow Hin Hfan.
  destruct (init_speed_profiles_fan profiles current settings i row Hload Hrow Hin Hfan)
    as (w1 & combobox & Hrun & Htrace).
  exists [Log DEBUG "init Presenter "]. unfold exec, on_start, _init_speed_profiles.
  cbn [ChannelType_members for_each].
  rewrite !bind_assoc. rewrite (bind_returned _ _ _ _ _ Hrun).
  match goal with
  | |- context [snd (?K w1)] => assert (Hext : extends_trace K)
  end.
  { apply extends_bind.
    - apply extends_bind; [apply extends_init_speed_profiles_channel|].
      intros _. apply extends_ret.
    - intros _. apply extends_bind; [|intros _; apply extends_main_loop].
      apply (extends_rest_of_start conf). }
  destruct (Hext w1) as [evs ->]. rewrite Htrace.
  exists (View combobox :: evs). split; reflexivity.
Qed.

(** ** [get_speed_profile_data] *)

Lemma dict_of_steps_snoc (l : list SpeedStep) (x : SpeedStep) :
  dict_of_steps (l ++ [x]) = <[temperature x := duty x]> (dict_of_steps l).
Proof. unfold dict_of_steps. by rewrite fold_left_app. Qed.

Lemma dict_of_steps_Some (l : list SpeedStep) (k d : Z) :
  dict_of_steps l !! k = Some d ->
  exists s, s ∈ l /\ temperature s = k /\ duty s = d.
Proof.
  induction l as [|x l IH] using rev_ind; [done|].
  rewrite dict_of_steps_snoc. intros H.
  destruct (decide (temperature x = k)) as [Heq|Hne].
  - rewrite Heq, lookup_insert_eq in H. injection H as <-.
    exists x. split; [|done]. apply elem_of_app. right. by left.
  - rewrite lookup_insert_ne in H by exact Hne.
    destruct (IH H) as (s & Hin & Hs). exists s. split; [|exact Hs].
    apply elem_of_app. by left.
Qed.

Lemma dict_of_steps_None (l : list SpeedStep) (k : Z) :
  (forall s, s ∈ l -> temperature s <> k) -> dict_of_steps l !! k = None.
Proof.
  intros Hall. destruct (dict_of_steps l !! k) as [d|] eqn:Hk; [|reflexivity].
  apply dict_of_steps_Some in Hk as (s & Hin & Hs & _). by destruct (Hall s Hin).
Qed.

Lemma dict_of_steps_is_Some (l : list SpeedStep) (s : SpeedStep) :
  s ∈ l -> is_Some (dict_of_steps l !! temperature s).
Proof.
  induction l as [|x l IH] using rev_ind; [by intros ?%elem_of_nil|].
  rewrite dict_of_steps_snoc. intros Hin.
  destruct (decide (temperature x = temperature s)) as [Heq|Hne].
  - rewrite Heq, lookup_insert_eq. by eexists.
  - rewrite lookup_insert_ne by exact Hne. apply IH.
    apply elem_of_app in Hin as [Hin|Hin]; [exact Hin|].
    apply list_elem_of_singleton in Hin. by subst.
Qed.

Lemma fold_left_min_le (l : list Z) (k : Z) : fold_left Z.min l k <= k.
Proof.
  revert k. induction l as [|x l IH]; intros k; simpl; [lia|].
  specialize (IH (Z.min k x)). lia.
Qed.

Lemma fold_left_min_spec (l : list Z) (k : Z) :
  (fold_left Z.min l k = k \/ fold_left Z.min l k ∈ l) /\
  forall x, x ∈ l -> fold_left Z.min l k <= x.
Proof.
  revert k. induction l as [|y l IH]; intros k; simpl.
  - split; [by left|]. by intros x ?%elem_of_nil.
  - destruct (IH (Z.min k y)) as [Hmem Hle]. split.
    + destruct Hmem as [Heq|Hin]; [|right; by right].
      rewrite Heq. destruct (Z.min_spec k y) as [[_ ->]|[_ ->]]; [by left|].
      right. by left.
    + intros x [->|Hin]%elem_of_cons; [|by apply Hle].
      pose proof (fold_left_min_le l (Z.min k y)). lia.
Qed.

Lemma list_min_spec (l : list Z) (m : Z) :
  list_min l = Some m -> m ∈ l /\ forall x, x ∈ l -> m <= x.
Proof.
  destruct l as [|k l]; [done|]. simpl. intros [= <-].
  destruct (fold_left_min_spec l k) as [Hmem Hle]. split.
  - destruct Hmem as [->|Hin]; [by left|by right].
  - intros x [->|Hin]%elem_of_cons; [apply fold_left_min_le|by apply Hle].
Qed.

(** C9: [get_speed_profile_data] returns the empty mapping for a profile
    without steps.  Otherwise it returns a mapping which, for a
    single-step profile, has the first step's duty at [MAX_TEMP]; and
    which, for another profile, has [MAX_DUTY] at [MAX_TEMP] and, when no
    step has temperature [MIN_TEMP], the duty of a step of lowest
    temperature at [MIN_TEMP]. *)
Theorem get_speed_profile_data_spec (conf : Conf) (p : SpeedProfile) :
  MIN_TEMP conf <> MAX_TEMP conf ->
  match steps p with
  | [] => get_speed_profile_data conf p = Returned ∅
  | first :: _ =>
      exists data : gmap Z Z,
        get_speed_profile_data conf p = Returned data /\
        (single_step p = true -> data !! MAX_TEMP conf = Some (duty first)) /\
        (single_step p = false ->
           data !! MAX_TEMP conf = Some (MAX_DUTY conf) /\
           ((forall s, s ∈ steps p -> temperature s <> MIN_TEMP conf) ->
            exists low,
              low ∈ steps p /\
              (forall s, s ∈ steps p -> temperature low <= temperature s) /\
              data !! MIN_TEMP conf = Some (duty low)))
  end.
Proof.
  intros Hminmax. unfold get_speed_profile_data.
  destruct (steps p) as [|first rest] eqn:Hsteps; [reflexivity|].
  assert (Hfirst : first ∈ first :: rest) by by left.
  rewrite bool_decide_eq_false_2.
  2:{ intros Hempty. destruct (dict_of_steps_is_Some _ _ Hfirst) as [d Hd].
      by rewrite Hempty, lookup_empty in Hd. }
  destruct (single_step p).
  { eexists. split; [reflexivity|]. split; [|done].
    intros _. apply lookup_insert_eq. }
  destruct (dict_of_steps (first :: rest) !! MIN_TEMP conf) as [d0|] eqn:Hmin.
  { eexists. split; [reflexivity|]. split; [done|]. intros _.
    split; [apply lookup_insert_eq|]. intros Hnone.
    by rewrite (dict_of_steps_None _ _ Hnone) in Hmin. }
  destruct (list_min (elements (dom (dict_of_steps (first :: rest))))) as [lowest|]
    eqn:Hlow.
  2:{ destruct (dict_of_steps_is_Some _ _ Hfirst) as [d Hd].
      assert (Hk : temperature first ∈ elements (dom (dict_of_steps (first :: rest)))).
      { apply elem_of_elements, elem_of_dom. by eexists. }
      destruct (elements _); [by apply elem_of_nil in Hk|done]. }
  apply list_min_spec in Hlow as [Hlowin Hlowle].
  apply elem_of_elements, elem_of_dom in Hlowin as [d Hd]. rewrite Hd.
  eexists. split; [reflexivity|]. split; [done|]. intros _.
  split; [apply lookup_insert_eq|]. intros _.
  destruct (dict_of_steps_Some _ _ _ Hd) as (low & Hin & Htemp & Hduty).
  exists low. split; [exact Hin|]. split.
  - intros s Hs. rewrite Htemp. apply Hlowle.
    apply elem_of_elements, elem_of_dom. by apply dict_of_steps_is_Some.
  - rewrite lookup_insert_ne by congruence. rewrite Hduty. apply lookup_insert_eq.
Qed.

(** ** Concrete runs *)

Example str_of_a_key_error : str_exn (KeyError "fan") = "'fan'".
Proof. reflexivity. Qed.

Example repr_of_a_backslash : py_repr "a\b" = "'a\\b'".
Proof. reflexivity. Qed.

Example repr_of_a_newline :
  py_repr ("a" +:+ newline) = String single_quote ("a" +:+ String backslash "n'").
Proof. reflexivity. Qed.

Example repr_of_a_single_quote :
  py_repr "it's" = String double_quote ("it's" +:+ String double_quote EmptyString).
Proof. reflexivity. Qed.

Example repr_of_a_control_character :
  py_repr (String (ascii_of_nat 31) EmptyString) = "'\x1f'".
Proof. reflexivity. Qed.

Example balanced_at_45 :
  last (duties (steps balanced) (Finite (45 # 1))) = Some 60.
Proof. reflexivity. Qed.

Example balanced_at_10 :
  last (duties (steps balanced) (Finite (10 # 1))) = None.
Proof. reflexivity. Qed.

Example balanced_at_60 :
  last (duties (steps balanced) (Finite (60 # 1))) = Some 100.
Proof. reflexivity. Qed.

Example tracking_world_publishes_60 :
  trace (exec (_update_status (Some warm)) (tracking balanced))
  = [View (refresh_status (mkStatus (Finite (45 # 1)) (Some 60) (Some 2000)))].
Proof. reflexivity. Qed.



Example single_step_cold_passes_through :
  published (trace (exec (_update_status (Some cold)) (tracking fixed75)))
  = [mkStatus (Finite (10 # 1)) (Some 1200) (Some 2000)].
Proof. reflexivity. Qed.

Example single_step_warm_publishes_75 :
  published (trace (exec (_update_status (Some warm)) (tracking fixed75)))
  = [mkStatus (Finite (45 # 1)) (Some 75) (Some 2000)].
Proof. reflexivity. Qed.


Lemma update_status_passes_through_when_not_tracking_witness :
  _should_update_fan_speed (idle balanced) = false /\
  _update_status (Some warm) (idle balanced) =
  (Returned tt, logged (View (refresh_status warm)) (idle balanced)).
Proof.
  split; [reflexivity|].
  apply (update_status_passes_through_when_not_tracking (idle balanced) warm).
  reflexivity.
Defined.


Lemma apply_twice_keeps_one_row_witness :
  one_row_per_channel (current_speed_profile_table (tracking balanced)) /\
  rows_of "fan"
    (current_speed_profile_table
       (exec (set_speed_profile_done fixed75 (Returned tt))
             (exec (set_speed_profile_done fixed75 (Returned tt)) (tracking balanced))))
  = [mkCurrentSpeedProfile "fan" fixed75].
Proof.
  assert (Hone : one_row_per_channel (current_speed_profile_table (tracking balanced))).
  { unfold one_row_per_channel. simpl. apply NoDup_singleton. }
  split; [exact Hone|].
  exact (proj1 (proj2 (apply_twice_keeps_one_row fixed75 (tracking balanced) Hone))).
Defined.

Example apply_to_empty_table_creates_the_row :
  current_speed_profile_table
    (exec (set_speed_profile_done silent_pump (Returned tt))
          (exec (set_speed_profile_done silent_pump (Returned tt)) (tracking balanced)))
  = [mkCurrentSpeedProfile "fan" balanced; mkCurrentSpeedProfile "pump" silent_pump].
Proof. reflexivity. Qed.

Example apply_reports_success :
  trace (exec (set_speed_profile_done silent_pump (Returned tt)) (tracking balanced))
  = [View (set_statusbar_text "Pump cooling profile applied")].
Proof. reflexivity. Qed.

(** C3 as stated fails: when the apply of the pump profile named
    "Silent" fails, the only text that reaches the status bar is
    "Error applying pump speed profile!", in which the name of the profile
    does not occur. *)
Lemma failed_apply_message_names_the_profile_counterexample :
  ~ (forall (p : SpeedProfile) (e : exn) (w : world),
        exists text,
          View (set_statusbar_text text)
            ∈ trace (exec (set_speed_profile_done p (Raised e)) w)
          /\ occurs_in (name p) text = true).
Proof.
  intros H.
  destruct (H silent_pump (Exception "device busy") (tracking balanced))
    as (text & Hin & Hocc).
  vm_compute in Hin.
  apply elem_of_cons in Hin as [Hin|Hin]; [discriminate Hin|].
  apply elem_of_cons in Hin as [Hin|Hin]; [|by apply elem_of_nil in Hin].
  injection Hin as ->. vm_compute in Hocc. discriminate Hocc.
Qed.

Example failed_apply_of_silent :
  trace (exec (set_speed_profile_done silent_pump (Raised (Exception "device busy")))
              (tracking balanced))
  = [Log EXCEPTION "Set cooling error: device busy";
     View (set_statusbar_text "Error applying pump speed profile!")]
  /\ name silent_pump = "Silent".
Proof. split; reflexivity. Qed.

Lemma refresh_ends_on_the_first_tick_witness :
  refresh (tracking balanced) = Some (mkRefresh 3000 0) /\
  exists w1,
    refresh_tick (Raised (Exception "no device")) (tracking balanced) = (Returned tt, w1)
    /\ trace w1
       = [Log DEBUG "GetStatusInteractor.execute()";
          Log EXCEPTION "Refresh error: module 'rx' has no attribute 'defer'"]
    /\ refresh w1 = None
    /\ exists w2, main_loop [Tick (Returned (Some warm)); Tick (Returned None)] w1
                  = (Returned tt, w2)
                  /\ refresh w2 = None
                  /\ fetch_times (trace w2) = []
                  /\ published (trace w2) = [].
Proof.
  split; [reflexivity|].
  exact (refresh_ends_on_the_first_tick (tracking balanced) (mkRefresh 3000 0)
           (Raised (Exception "no device"))
           [Tick (Returned (Some warm)); Tick (Returned None)] eq_refl).
Defined.

Example ticks_of_a_run :
  trace (exec (main_loop [Tick (Returned (Some warm));
                          Tick (Raised (Exception "no device"));
                          Tick (Returned None)])
              (tracking balanced))
  = [Log DEBUG "GetStatusInteractor.execute()";
     Log EXCEPTION "Refresh error: module 'rx' has no attribute 'defer'"].
Proof. reflexivity. Qed.

Lemma startup_applies_last_fan_profile_first_witness :
  get_bool the_settings "settings_load_last_profile" = true /\
  exists before after,
    trace (exec (on_start the_conf ;; main_loop [Tick (Returned (Some warm))])
                (Presenter_init [balanced; silent_pump]
                                [mkCurrentSpeedProfile "fan" balanced] the_settings))
    = before
      ++ DeviceSetSpeedProfile "fan" [(20, 30); (40, 60); (60, 100)]
      :: after
    /\ forallb (fun e => negb (is_refresh_status e)) before = true.
Proof.
  split; [reflexivity|].
  apply (startup_applies_last_fan_profile_first
           the_conf [balanced; silent_pump] [mkCurrentSpeedProfile "fan" balanced]
           the_settings 0%nat (mkCurrentSpeedProfile "fan" balanced)
           [Tick (Returned (Some warm))]).
  - reflexivity.
  - reflexivity.
  - by left.
  - reflexivity.
Defined.

Example startup_trace :
  trace (exec (on_start the_conf ;; main_loop [Tick (Returned (Some warm))])
              (Presenter_init [balanced; silent_pump]
                              [mkCurrentSpeedProfile "fan" balanced] the_settings))
  = [Log DEBUG "init Presenter ";
     DeviceSetSpeedProfile "fan" [(20, 30); (40, 60); (60, 100)];
     View (refresh_profile_combobox FAN
             [(1, "Balanced");
              (-10, "<span style='italic' alpha='50%'>Add new profile...</span>")]
             (Some 0%nat));
     View (refresh_profile_combobox PUMP
             [(4, "Silent");
              (-10, "<span style='italic' alpha='50%'>Add new profile...</span>")]
             None);
     View (refresh_settings
             (<["settings_refresh_interval" := VInt 3]>
                (<["settings_load_last_profile" := VBool true]> ∅)));
     Log DEBUG "start refresh";
     CheckNewVersion;
     Log DEBUG "GetStatusInteractor.execute()";
     Log EXCEPTION "Refresh error: module 'rx' has no attribute 'defer'"].
Proof. vm_compute. reflexivity. Qed.

(** C8 as stated fails: with the setting on and a row for the fan
    persisted, whose profile is not among the fan profiles listed,
    [on_start] raises [StopIteration] before anything is requested of the
    device: the trace holds the log record of [__init__] alone. *)
Lemma startup_applies_the_persisted_profile_counterexample :
  ~ (forall (conf : Conf) (profiles : list SpeedProfile)
            (current : list CurrentSpeedProfile) (settings : SettingsInteractor)
            (i : nat) (row : CurrentSpeedProfile) (ds : list delivery),
        get_bool settings "settings_load_last_profile" = true ->
        list_find (fun r => csp_channel r = ChannelType_value FAN) current
        = Some (i, row) ->
        exists before after,
          trace (exec (on_start conf ;; main_loop ds)
                      (Presenter_init profiles current settings))
          = before
            ++ DeviceSetSpeedProfile (channel (profile row))
                                     (_get_profile_data (profile row))
            :: after
          /\ forallb (fun e => negb (is_refresh_status e)) before = true).
Proof.
  intros H.
  destruct (H the_conf [silent_pump] [mkCurrentSpeedProfile "fan" silent_pump]
              the_settings 0%nat (mkCurrentSpeedProfile "fan" silent_pump)
              [Tick (Returned (Some warm))] eq_refl eq_refl)
    as (before & after & Htrace & _).
  assert (Hnone : apply_requests
                    (trace (exec (on_start the_conf ;;
                                  main_loop [Tick (Returned (Some warm))])
                                 (Presenter_init [silent_pump]
                                    [mkCurrentSpeedProfile "fan" silent_pump]
                                    the_settings))) = []) by reflexivity.
  rewrite Htrace, apply_requests_app in Hnone. cbn [apply_requests] in Hnone.
  destruct (apply_requests before); discriminate Hnone.
Qed.

Example startup_with_a_profile_that_is_not_listed :
  (on_start the_conf ;; main_loop [Tick (Returned (Some warm))])
    (Presenter_init [silent_pump] [mkCurrentSpeedProfile "fan" silent_pump] the_settings)
  = (Raised StopIteration,
     with_should_update_fan_speed true
       (Presenter_init [silent_pump] [mkCurrentSpeedProfile "fan" silent_pump]
                       the_settings)).
Proof. reflexivity. Qed.

Lemma get_speed_profile_data_spec_witness :
  MIN_TEMP the_conf <> MAX_TEMP the_conf /\
  exists data : gmap Z Z,
    get_speed_profile_data the_conf late = Returned data /\
    (single_step late = true -> data !! MAX_TEMP the_conf = Some 80) /\
    (single_step late = false ->
       data !! MAX_TEMP the_conf = Some (MAX_DUTY the_conf) /\
       ((forall s, s ∈ steps late -> temperature s <> MIN_TEMP the_conf) ->
        exists low,
          low ∈ steps late /\
          (forall s, s ∈ steps late -> temperature low <= temperature s) /\
          data !! MIN_TEMP the_conf = Some (duty low))).
Proof.
  assert (Hne : MIN_TEMP the_conf <> MAX_TEMP the_conf) by (simpl; lia).
  split; [exact Hne|].
  exact (get_speed_profile_data_spec the_conf late Hne).
Defined.

Example chart_data_of_late :
  get_speed_profile_data the_conf late
  = Returned (<[60 := 100]> (<[20 := 40]> (<[50 := 80]> (<[30 := 40]> ∅)))).
Proof. vm_compute. reflexivity. Qed.

Example chart_data_of_fixed75 :
  get_speed_profile_data the_conf fixed75
  = Returned (<[60 := 75]> (<[20 := 75]> ∅)).
Proof. vm_compute. reflexivity. Qed.

Example chart_data_without_steps :
  get_speed_profile_data the_conf (mkSpeedProfile 9 "fan" "Empty" false []) = Returned ∅.
Proof. reflexivity. Qed.

(** * Further properties *)

(** ** [_update_status] on any profile *)





Lemma _update_status_no_row (w : world) (status : Status) :
  last_applied_fan w = None ->
  _update_status (Some status) w =
  (Returned tt, logged (View (refresh_status status)) w).
Proof.
  unfold last_applied_fan. intros Hrow.
  unfold _update_status, get_or_none, bind, gets.
  destruct (_should_update_fan_speed w); [|reflexivity].
  cbv beta iota. by rewrite Hrow.
Qed.





(** X4: with tracking on but no row for the fan in the table of current
    profiles, the rows of the other channels play no part: the status is
    published as the device reported it. *)
Theorem update_status_without_fan_row_passes_through (w : world) (status : Status) :
  rows_of (ChannelType_value FAN) (current_speed_profile_table w) = [] ->
  _update_status (Some status) w =
  (Returned tt, logged (View (refresh_status status)) w).
Proof.
  intros Hrows. apply _update_status_no_row. unfold last_applied_fan.
  apply list_find_None, Forall_forall. intros row Hin Hfan.
  assert (Hrow : row ∈ rows_of (ChannelType_value FAN) (current_speed_profile_table w)).
  { unfold rows_of. by apply list_elem_of_filter. }
  rewrite Hrows in Hrow. by apply elem_of_nil in Hrow.
Qed.

Lemma update_status_without_fan_row_passes_through_witness :
  rows_of (ChannelType_value FAN) (current_speed_profile_table pump_only) = [] /\
  _should_update_fan_speed pump_only = true /\
  _update_status (Some warm) pump_only =
  (Returned tt, logged (View (refresh_status warm)) pump_only).
Proof.
  split; [reflexivity|]. split; [reflexivity|].
  apply (update_status_without_fan_row_passes_through pump_only warm). reflexivity.
Defined.

(** ** The table of current profiles over a run *)

Lemma for_each_update_table (ps : list SpeedProfile) (w : world) :
  current_speed_profile_table (exec (for_each _update_current_speed_profile ps) w)
  = fold_left (fun t p => upsert p t) ps (current_speed_profile_table w).
Proof.
  revert w. induction ps as [|p ps IH]; intros w; [reflexivity|].
  unfold exec in *. simpl for_each. unfold bind at 1.
  rewrite _update_current_speed_profile_eq. rewrite IH. reflexivity.
Qed.

Lemma fold_upsert_one_row (ps : list SpeedProfile) (t : list CurrentSpeedProfile) :
  one_row_per_channel t ->
  one_row_per_channel (fold_left (fun t p => upsert p t) ps t)
  /\ (csp_channel <$> t) ⊆ (csp_channel <$> fold_left (fun t p => upsert p t) ps t).
Proof.
  revert t. induction ps as [|p ps IH]; intros t Hone; [done|].
  simpl. destruct (IH (upsert p t) (upsert_one_row_per_channel p t Hone)) as [H1 H2].
  split; [exact H1|]. intros c Hc. apply H2. rewrite upsert_channels.
  destruct (decide (channel p ∈ csp_channel <$> t)); [exact Hc|].
  apply elem_of_app. by left.
Qed.

(** X5: over any sequence of ticks and ends of applies, the loop returns
    normally and leaves the table of current profiles as
    [_update_current_speed_profile] alone leaves it when run for the
    profiles whose apply succeeded, in the order of delivery: ticks and
    failed applies do not write to the table, and the tracking flag stays
    as it was. *)
Theorem main_loop_table_is_that_of_the_successful_applies (ds : list delivery)
    (w : world) :
  fst (main_loop ds w) = Returned tt /\
  current_speed_profile_table (exec (main_loop ds) w)
  = current_speed_profile_table
      (exec (for_each _update_current_speed_profile (applied ds)) w) /\
  _should_update_fan_speed (exec (main_loop ds) w) = _should_update_fan_speed w.
Proof.
  destruct (main_loop_table ds w) as (w' & Hrun & Ht & Hf).
  unfold exec at 1 3. rewrite Hrun. simpl.
  split; [reflexivity|]. split; [|exact Hf].
  by rewrite Ht, for_each_update_table.
Qed.

(** X6: a table with at most one row per channel keeps that property over
    any sequence of deliveries, and no channel loses its row. *)
Theorem main_loop_keeps_one_row_per_channel (ds : list delivery) (w : world) :
  one_row_per_channel (current_speed_profile_table w) ->
  one_row_per_channel (current_speed_profile_table (exec (main_loop ds) w)) /\
  forall c, c ∈ csp_channel <$> current_speed_profile_table w ->
            c ∈ csp_channel <$> current_speed_profile_table (exec (main_loop ds) w).
Proof.
  intros Hone. destruct (main_loop_table ds w) as (w' & Hrun & Ht & _).
  unfold exec. rewrite Hrun. simpl. rewrite Ht.
  destruct (fold_upsert_one_row (applied ds) _ Hone) as [H1 H2].
  split; [exact H1|]. intros c Hc. by apply H2.
Qed.

Lemma main_loop_keeps_one_row_per_channel_witness :
  one_row_per_channel (current_speed_profile_table (tracking balanced)) /\
  one_row_per_channel
    (current_speed_profile_table
       (exec (main_loop [SetSpeedProfileDone silent_pump (Returned tt);
                         Tick (Raised (Exception "no device"));
                         SetSpeedProfileDone fixed75 (Raised (Exception "device busy"));
                         SetSpeedProfileDone tied (Returned tt)])
             (tracking balanced))).
Proof.
  assert (Hone : one_row_per_channel (current_speed_profile_table (tracking balanced))).
  { unfold one_row_per_channel. simpl. apply NoDup_singleton. }
  split; [exact Hone|].
  exact (proj1 (main_loop_keeps_one_row_per_channel _ (tracking balanced) Hone)).
Defined.

Example table_after_a_mixed_run :
  current_speed_profile_table
    (exec (main_loop [SetSpeedProfileDone silent_pump (Returned tt);
                      Tick (Raised (Exception "no device"));
                      SetSpeedProfileDone fixed75 (Raised (Exception "device busy"));
                      SetSpeedProfileDone tied (Returned tt)])
          (tracking balanced))
  = [mkCurrentSpeedProfile "fan" tied; mkCurrentSpeedProfile "pump" silent_pump].
Proof. reflexivity. Qed.

(** X7: successful applies to two different channels do not interfere:
    in either order of completion every channel ends with the same
    rows. *)
Theorem applies_to_different_channels_commute (p q : SpeedProfile) (w : world)
    (c : string) :
  one_row_per_channel (current_speed_profile_table w) ->
  channel p <> channel q ->
  rows_of c
    (current_speed_profile_table
       (exec (set_speed_profile_done q (Returned tt))
             (exec (set_speed_profile_done p (Returned tt)) w)))
  = rows_of c
      (current_speed_profile_table
         (exec (set_speed_profile_done p (Returned tt))
               (exec (set_speed_profile_done q (Returned tt)) w))).
Proof.
  intros Hone Hpq. unfold exec.
  rewrite !set_speed_profile_done_ok, !_update_current_speed_profile_eq. simpl.
  set (t := current_speed_profile_table w) in *.
  destruct (decide (c = channel q)) as [->|Hq].
  - rewrite rows_of_upsert by by apply upsert_one_row_per_channel.
    rewrite rows_of_upsert_other by congruence.
    by rewrite rows_of_upsert.
  - rewrite rows_of_upsert_other by exact Hq.
    destruct (decide (c = channel p)) as [->|Hp].
    + rewrite rows_of_upsert by exact Hone.
      by rewrite rows_of_upsert by by apply upsert_one_row_per_channel.
    + by rewrite !rows_of_upsert_other.
Qed.

Lemma applies_to_different_channels_commute_witness :
  one_row_per_channel (current_speed_profile_table (tracking balanced)) /\
  channel fixed75 <> channel silent_pump /\
  rows_of "pump"
    (current_speed_profile_table
       (exec (set_speed_profile_done silent_pump (Returned tt))
             (exec (set_speed_profile_done fixed75 (Returned tt)) (tracking balanced))))
  = rows_of "pump"
      (current_speed_profile_table
         (exec (set_speed_profile_done fixed75 (Returned tt))
               (exec (set_speed_profile_done silent_pump (Returned tt))
                     (tracking balanced)))).
Proof.
  assert (Hone : one_row_per_channel (current_speed_profile_table (tracking balanced))).
  { unfold one_row_per_channel. simpl. apply NoDup_singleton. }
  assert (Hne : channel fixed75 <> channel silent_pump) by discriminate.
  split; [exact Hone|]. split; [exact Hne|].
  exact (applies_to_different_channels_commute fixed75 silent_pump (tracking balanced)
           "pump" Hone Hne).
Defined.

(** ** Start-up in its other cases *)

(** X11: with the setting [settings_load_last_profile] off, start-up
    returns normally and requests no apply, whatever the table of current
    profiles holds; it leaves that table and the tracking flag as they
    were and subscribes the refresh with the configured interval. *)
Theorem on_start_without_load_last_profile_applies_nothing (conf : Conf) (w : world) :
  get_bool (_settings_interactor w) "settings_load_last_profile" = false ->
  exists w',
    on_start conf w = (Returned tt, w')
    /\ apply_requests (trace w') = apply_requests (trace w)
    /\ published (trace w') = published (trace w)
    /\ current_speed_profile_table w' = current_speed_profile_table w
    /\ _should_update_fan_speed w' = _should_update_fan_speed w
    /\ refresh w'
       = Some (mkRefresh (get_int (_settings_interactor w) "settings_refresh_interval"
                          * 1000) 0).
Proof.
  intros Hload.
  unfold on_start, _init_speed_profiles, _init_settings, _start_refresh,
    _check_new_version.
  cbn [ChannelType_members for_each].
  unfold _init_speed_profiles_channel, _get_profile_list.
  run. rewrite Hload. run. rewrite Hload. run.
  eexists. split; [reflexivity|]. cbn [trace].
  rewrite !apply_requests_app, !published_app. simpl. rewrite !app_nil_r.
  by repeat split.
Qed.

Lemma on_start_without_load_last_profile_applies_nothing_witness :
  get_bool (_settings_interactor
              (with_trace [] (Presenter_init [balanced] [mkCurrentSpeedProfile "fan" balanced]
                                             (mkSettings (fun _ => false) (fun _ => 2)))))
           "settings_load_last_profile" = false /\
  exists w',
    on_start the_conf
      (with_trace [] (Presenter_init [balanced] [mkCurrentSpeedProfile "fan" balanced]
                                     (mkSettings (fun _ => false) (fun _ => 2))))
    = (Returned tt, w')
    /\ apply_requests (trace w') = []
    /\ refresh w' = Some (mkRefresh 2000 0).
Proof.
  split; [reflexivity|].
  destruct (on_start_without_load_last_profile_applies_nothing the_conf
              (with_trace [] (Presenter_init [balanced] [mkCurrentSpeedProfile "fan" balanced]
                                             (mkSettings (fun _ => false) (fun _ => 2))))
              eq_refl) as (w' & Hrun & Hreq & _ & _ & _ & Hrefresh).
  exists w'. split; [exact Hrun|]. split; [exact Hreq|exact Hrefresh].
Defined.

Lemma existsb_filter {A : Type} (f : A -> bool) (l : list A) :
  existsb f l = match List.filter f l with [] => false | _ :: _ => true end.
Proof.
  induction l as [|x l IH]; [reflexivity|]. simpl.
  destruct (f x); [reflexivity|exact IH].
Qed.

Lemma existsb_id (z : Z) (l : list SpeedProfile) :
  existsb (fun p => id p =? z) l
  = match list_find (fun p => id p = z) l with Some _ => true | None => false end.
Proof.
  induction l as [|x l IH]; [reflexivity|]. simpl.
  destruct (decide (id x = z)) as [Heq|Hne].
  - apply Z.eqb_eq in Heq. by rewrite Heq.
  - apply Z.eqb_neq in Hne. rewrite Hne, IH. simpl.
    by destruct (list_find _ l).
Qed.

(** X12: with the setting on and a row for the fan whose profile's id is
    not the id of any fan profile of the profile table, start-up raises in
    the fan's pass of [_init_speed_profiles]: the model's [DoesNotExist]
    when a fan profile is listed and no profile of the table has the id,
    and [StopIteration] otherwise, that is when no fan profile is listed
    or when the id is that of a profile of another channel.  Either way
    nothing has reached the view or the device, the refresh is not
    subscribed, and only the tracking flag has changed, to on. *)
Theorem on_start_raises_when_the_last_profile_is_not_listed (conf : Conf) (w : world)
    (i : nat) (row : CurrentSpeedProfile) :
  get_bool (_settings_interactor w) "settings_load_last_profile" = true ->
  last_applied_fan w = Some (i, row) ->
  (forall p, p ∈ speed_profile_table w -> channel p = ChannelType_value FAN ->
             id p <> id (profile row)) ->
  on_start conf w
  = (Raised (if existsb (fun p => String.eqb (channel p) (ChannelType_value FAN))
                        (speed_profile_table w)
                && negb (existsb (fun p => id p =? id (profile row))
                                 (speed_profile_table w))
             then Exception "SpeedProfileDoesNotExist"
             else StopIteration),
     with_should_update_fan_speed true w).
Proof.
  unfold last_applied_fan. intros Hload Hrow Hnone.
  rewrite existsb_filter, existsb_id.
  unfold on_start, _init_speed_profiles, _init_settings, _start_refresh,
    _check_new_version.
  cbn [ChannelType_members for_each].
  unfold _init_speed_profiles_channel, _get_profile_list, get_or_none,
    CurrentSpeedProfile_profile.
  run. rewrite Hload. run.
  match goal with
  | |- context [@list_find ?A ?P ?D (current_speed_profile_table w)] =>
      assert (Hrow' : @list_find A P D (current_speed_profile_table w) = Some (i, row))
        by exact Hrow;
      rewrite Hrow'
  end.
  assert (Hfind : list_find (fun item : Z * string => item.1 = id (profile row))
                    (map (fun p => (id p, name p))
                       (List.filter
                          (fun p => String.eqb (channel p) (ChannelType_value FAN))
                          (speed_profile_table w))) = None).
  { apply list_find_None, Forall_forall. intros item Hitem Hid.
    apply list_elem_of_In, List.in_map_iff in Hitem as (p & <- & Hp).
    apply List.filter_In in Hp as [Hp Hfan]. apply String.eqb_eq in Hfan.
    apply list_elem_of_In in Hp. by destruct (Hnone p Hp Hfan). }
  destruct (List.filter (fun p => String.eqb (channel p) (ChannelType_value FAN))
                        (speed_profile_table w)) as [|p0 listed] eqn:Hlisted;
    [reflexivity|].
  cbn [map] in Hfind |- *. run.
  destruct (list_find (fun p => id p = id (profile row)) (speed_profile_table w))
    as [found|] eqn:Hfk.
  - run.
    match goal with
    | |- context [@list_find ?A ?P ?D ((id p0, name p0) :: ?r)] =>
        assert (Hfind' : @list_find A P D ((id p0, name p0) :: r) = None)
          by exact Hfind;
        rewrite Hfind'
    end.
    reflexivity.
  - reflexivity.
Qed.

Lemma on_start_raises_when_the_last_profile_is_not_listed_witness :
  get_bool the_settings "settings_load_last_profile" = true /\
  on_start the_conf
    (Presenter_init [balanced; silent_pump] [mkCurrentSpeedProfile "fan" fixed75]
                    the_settings)
  = (Raised (Exception "SpeedProfileDoesNotExist"),
     with_should_update_fan_speed true
       (Presenter_init [balanced; silent_pump] [mkCurrentSpeedProfile "fan" fixed75]
                       the_settings)).
Proof.
  split; [reflexivity|].
  apply (on_start_raises_when_the_last_profile_is_not_listed the_conf
           (Presenter_init [balanced; silent_pump] [mkCurrentSpeedProfile "fan" fixed75]
                           the_settings)
           0%nat (mkCurrentSpeedProfile "fan" fixed75)).
  - reflexivity.
  - reflexivity.
  - intros p Hp Hfan.
    apply elem_of_cons in Hp as [->|Hp]; [discriminate|].
    apply list_elem_of_singleton in Hp as ->. discriminate Hfan.
Defined.

Example start_up_with_the_profile_of_another_channel :
  on_start the_conf
    (Presenter_init [balanced; silent_pump] [mkCurrentSpeedProfile "fan" silent_pump]
                    the_settings)
  = (Raised StopIteration,
     with_should_update_fan_speed true
       (Presenter_init [balanced; silent_pump] [mkCurrentSpeedProfile "fan" silent_pump]
                       the_settings)).
Proof. reflexivity. Qed.

(** X13: with the setting on and, for the channel, a row whose profile is
    a profile of that channel in the profile table, the channel's pass of
    [_init_speed_profiles] turns tracking on, requests the apply of that
    profile and then fills the combo box with the channel's profiles
    followed by the entry "Add new profile..."; the active index it passes
    is the first place in that list that holds the id of the row's
    profile, so it never designates the added entry. *)
Theorem init_speed_profiles_selects_the_last_profile (c : ChannelType) (w : world)
    (i : nat) (row : CurrentSpeedProfile) :
  get_bool (_settings_interactor w) "settings_load_last_profile" = true ->
  list_find (fun r => csp_channel r = ChannelType_value c)
            (current_speed_profile_table w) = Some (i, row) ->
  profile row ∈ speed_profile_table w ->
  channel (profile row) = ChannelType_value c ->
  exists (j : nat) (shown : string) (data : list (Z * string)),
    fst (_get_profile_list c w) = Returned data
    /\ data !! j = Some (id (profile row), shown)
    /\ (forall k item, data !! k = Some item -> (k < j)%nat -> item.1 <> id (profile row))
    /\ _init_speed_profiles_channel c w
       = (Returned tt,
          logged (View (refresh_profile_combobox c
                          (data ++ [(_ADD_NEW_PROFILE_INDEX,
                                     "<span style='italic' alpha='50%'>Add new profile...</span>")])
                          (Some j)))
            (logged (DeviceSetSpeedProfile (channel (profile row))
                                           (_get_profile_data (profile row)))
                    (with_should_update_fan_speed true w))).
Proof. apply init_speed_profiles_channel_listed. Qed.

Lemma init_speed_profiles_selects_the_last_profile_witness :
  get_bool the_settings "settings_load_last_profile" = true /\
  exists (j : nat) (shown : string) (data : list (Z * string)),
    fst (_get_profile_list FAN (tracking tied)) = Returned data
    /\ data !! j = Some (id tied, shown)
    /\ (forall k item, data !! k = Some item -> (k < j)%nat -> item.1 <> id tied)
    /\ _init_speed_profiles_channel FAN (tracking tied)
       = (Returned tt,
          logged (View (refresh_profile_combobox FAN
                          (data ++ [(_ADD_NEW_PROFILE_INDEX,
                                     "<span style='italic' alpha='50%'>Add new profile...</span>")])
                          (Some j)))
            (logged (DeviceSetSpeedProfile (channel tied) (_get_profile_data tied))
                    (with_should_update_fan_speed true (tracking tied)))).
Proof.
  split; [reflexivity|].
  apply (init_speed_profiles_selects_the_last_profile FAN (tracking tied) 0%nat
           (mkCurrentSpeedProfile "fan" tied)).
  - reflexivity.
  - reflexivity.
  - right. right. by left.
  - reflexivity.
Defined.

Example combobox_of_the_fan_when_tied_was_applied :
  trace (exec (_init_speed_profiles_channel FAN) (tracking tied))
  = [DeviceSetSpeedProfile "fan" [(20, 30); (40, 50); (40, 55); (60, 100)];
     View (refresh_profile_combobox FAN
             [(1, "Balanced"); (2, "Fixed"); (3, "Tied");
              (-10, "<span style='italic' alpha='50%'>Add new profile...</span>")]
             (Some 2%nat))].
Proof. reflexivity. Qed.

(** ** [_init_settings] *)

Lemma settings_fold_lookup (interactor : SettingsInteractor)
    (defaults : list (string * setting_value)) (acc : gmap string setting_value)
    (key : string) :
  NoDup defaults.*1 ->
  fold_left (fun (settings : gmap string setting_value) item =>
               match item.2 with
               | VBool _ => <[item.1 := VBool (get_bool interactor item.1)]> settings
               | VInt _ => <[item.1 := VInt (get_int interactor item.1)]> settings
               | VOther => settings
               end)
            defaults acc !! key
  = match list_find (fun item => item.1 = key) defaults with
    | Some (_, (_, VBool _)) => Some (VBool (get_bool interactor key))
    | Some (_, (_, VInt _)) => Some (VInt (get_int interactor key))
    | Some (_, (_, VOther)) => acc !! key
    | None => acc !! key
    end.
Proof.
  revert acc. induction defaults as [|[k d] defaults IH]; intros acc Hnd; [done|].
  rewrite fmap_cons in Hnd. apply NoDup_cons in Hnd as [Hk Hnd]. simpl in Hk.
  cbn [fold_left list_find]. rewrite IH by exact Hnd. simpl.
  destruct (decide (k = key)) as [->|Hne].
  - assert (Hnone : list_find (fun item : string * setting_value => item.1 = key) defaults
                    = None).
    { apply list_find_None, Forall_forall. intros item Hitem Heq. apply Hk.
      rewrite <- Heq. by apply list_elem_of_fmap_2. }
    rewrite Hnone. simpl. destruct d; by rewrite ?lookup_insert_eq.
  - destruct (list_find _ defaults) as [[j [k' d']]|]; simpl.
    + destruct d'; try reflexivity. destruct d; by rewrite ?lookup_insert_ne.
    + destruct d; by rewrite ?lookup_insert_ne.
Qed.

(** X14: [_init_settings] makes one view call, [refresh_settings], and
    changes nothing else.  With the keys of [SETTINGS_DEFAULTS] distinct,
    the settings it passes hold, for each key whose default is a bool, what
    [get_bool] returns for the key and, for each key whose default is an
    int, what [get_int] returns; a key with a default of another type, or
    without a default, is absent.  The default values themselves are never
    shown. *)
Theorem init_settings_shows_the_stored_values (conf : Conf) (w : world) :
  NoDup (SETTINGS_DEFAULTS conf).*1 ->
  exists settings : gmap string setting_value,
    _init_settings conf w = (Returned tt, logged (View (refresh_settings settings)) w)
    /\ (forall key default,
          (key, default) ∈ SETTINGS_DEFAULTS conf ->
          settings !! key
          = match default with
            | VBool _ => Some (VBool (get_bool (_settings_interactor w) key))
            | VInt _ => Some (VInt (get_int (_settings_interactor w) key))
            | VOther => None
            end)
    /\ (forall key, key ∉ (SETTINGS_DEFAULTS conf).*1 -> settings !! key = None).
Proof.
  intros Hnd. unfold _init_settings. run.
  eexists. split; [reflexivity|]. split.
  - intros key default Hin.
    rewrite settings_fold_lookup by exact Hnd.
    destruct (list_find (fun item : string * setting_value => item.1 = key)
                        (SETTINGS_DEFAULTS conf)) as [[j [k d]]|] eqn:Hfind.
    + apply list_find_Some in Hfind as (Hj & Hk & _). simpl in Hk. subst k.
      apply list_elem_of_lookup_2 in Hj.
      assert (d = default) as ->.
      { apply list_elem_of_lookup in Hin as [a Ha].
        apply list_elem_of_lookup in Hj as [b Hb].
        assert (a = b) as ->.
        { eapply NoDup_lookup; [exact Hnd| |].
          - rewrite list_lookup_fmap, Ha. reflexivity.
          - rewrite list_lookup_fmap, Hb. reflexivity. }
        congruence. }
      destruct default; reflexivity.
    + apply list_find_None in Hfind. rewrite Forall_forall in Hfind.
      by destruct (Hfind _ Hin).
  - intros key Hout. rewrite settings_fold_lookup by exact Hnd.
    destruct (list_find (fun item : string * setting_value => item.1 = key)
                        (SETTINGS_DEFAULTS conf)) as [[j [k d]]|] eqn:Hfind; [|done].
    apply list_find_Some in Hfind as (Hj & Hk & _). simpl in Hk. subst k.
    destruct Hout. apply list_elem_of_lookup_2 in Hj.
    by apply (list_elem_of_fmap_2 fst) in Hj.
Qed.

Lemma init_settings_shows_the_stored_values_witness :
  NoDup (SETTINGS_DEFAULTS the_conf).*1 /\
  exists settings : gmap string setting_value,
    _init_settings the_conf (tracking balanced)
    = (Returned tt, logged (View (refresh_settings settings)) (tracking balanced))
    /\ settings !! "settings_load_last_profile" = Some (VBool true)
    /\ settings !! "settings_refresh_interval" = Some (VInt 3).
Proof.
  assert (Hnd : NoDup (SETTINGS_DEFAULTS the_conf).*1).
  { simpl. apply NoDup_cons. split; [|apply NoDup_singleton].
    intros Hin. apply list_elem_of_singleton in Hin. discriminate Hin. }
  split; [exact Hnd|].
  destruct (init_settings_shows_the_stored_values the_conf (tracking balanced) Hnd)
    as (settings & Hrun & Hin & _).
  exists settings. split; [exact Hrun|]. split.
  - apply (Hin "settings_load_last_profile" (VBool false)). by left.
  - apply (Hin "settings_refresh_interval" (VInt 3)). right. by left.
Defined.

(** ** Selecting, applying and editing *)



(** X16: selecting a fan profile by its id and then clicking the fan's
    apply button requests the apply of exactly that profile, with its
    steps as (temperature, duty) pairs in their order, and turns tracking
    on; the profile stays selected for its channel. *)
Theorem select_then_apply_requests_the_selected_profile (w : world) (pid : Z)
    (j : nat) (p : SpeedProfile) :
  pid <> _ADD_NEW_PROFILE_INDEX ->
  list_find (fun q => id q = pid) (speed_profile_table w) = Some (j, p) ->
  channel p = ChannelType_value FAN ->
  let w' := exec (_select_speed_profile pid FAN ;; on_fan_apply_button_clicked) w in
  fst ((_select_speed_profile pid FAN ;; on_fan_apply_button_clicked) w) = Returned tt /\
  id p = pid /\
  trace w'
  = trace w ++ [DeviceSetSpeedProfile (ChannelType_value FAN)
                                      (map (fun s => (temperature s, duty s)) (steps p))] /\
  _should_update_fan_speed w' = true /\
  _profile_selected w' !! ChannelType_value FAN = Some p /\
  current_speed_profile_table w' = current_speed_profile_table w.
Proof.
  intros Hpid Hfind Hchan w'.
  assert (Hselect : _select_speed_profile pid FAN w =
                    (Returned [set_apply_button_enabled FAN true;
                               set_edit_button_enabled FAN true;
                               refresh_chart p],
                     with_profile_selected (<[channel p := p]> (_profile_selected w)) w)).
  { unfold _select_speed_profile, SpeedProfile_get.
    apply Z.eqb_neq in Hpid. rewrite Hpid. run_handlers.
    match goal with
    | |- context [@list_find ?A ?P ?D (speed_profile_table w)] =>
        assert (Hfind' : @list_find A P D (speed_profile_table w) = Some (j, p))
          by exact Hfind;
        rewrite Hfind'
    end.
    reflexivity. }
  assert (Hrun : (_select_speed_profile pid FAN ;; on_fan_apply_button_clicked) w
                 = (Returned tt,
                    with_should_update_fan_speed true
                      (logged (DeviceSetSpeedProfile (channel p) (_get_profile_data p))
                         (with_profile_selected (<[channel p := p]> (_profile_selected w))
                                                w)))).
  { rewrite (bind_returned _ _ _ _ _ Hselect).
    unfold on_fan_apply_button_clicked, _set_speed_profile. run_handlers.
    rewrite <- Hchan, lookup_insert_eq. reflexivity. }
  subst w'. unfold exec. rewrite Hrun. run_handlers.
  apply list_find_Some in Hfind as (_ & Hid & _).
  rewrite <- Hchan, lookup_insert_eq. by repeat split.
Qed.

Lemma select_then_apply_requests_the_selected_profile_witness :
  3 <> _ADD_NEW_PROFILE_INDEX /\
  list_find (fun q => id q = 3) (speed_profile_table (idle balanced)) = Some (2%nat, tied) /\
  channel tied = ChannelType_value FAN /\
  trace (exec (_select_speed_profile 3 FAN ;; on_fan_apply_button_clicked) (idle balanced))
  = trace (idle balanced)
    ++ [DeviceSetSpeedProfile (ChannelType_value FAN)
                              (map (fun s => (temperature s, duty s)) (steps tied))].
Proof.
  assert (Hpid : 3 <> _ADD_NEW_PROFILE_INDEX) by discriminate.
  split; [exact Hpid|]. split; [reflexivity|]. split; [reflexivity|].
  exact (proj1 (proj2 (proj2 (select_then_apply_requests_the_selected_profile
                                (idle balanced) 3 2%nat tied Hpid eq_refl eq_refl)))).
Defined.

(** X17: selecting a profile of the channel and then clicking the
    channel's edit button shows the fixed-speed popover for that profile
    when it is a single-step profile, and makes no view call
    otherwise. *)
Theorem select_then_edit_shows_the_popover_for_single_step (w : world) (pid : Z)
    (c : ChannelType) (j : nat) (p : SpeedProfile) :
  pid <> _ADD_NEW_PROFILE_INDEX ->
  list_find (fun q => id q = pid) (speed_profile_table w) = Some (j, p) ->
  channel p = ChannelType_value c ->
  (_select_speed_profile pid c ;; _on_edit_button_clicked c) w
  = (Returned (if single_step p then [show_fixed_speed_profile_popover p] else []),
     with_profile_selected (<[channel p := p]> (_profile_selected w)) w).
Proof.
  intros Hpid Hfind Hchan.
  unfold _select_speed_profile, SpeedProfile_get, _on_edit_button_clicked.
  apply Z.eqb_neq in Hpid. rewrite Hpid. run_handlers.
  match goal with
  | |- context [@list_find ?A ?P ?D (speed_profile_table w)] =>
      assert (Hfind' : @list_find A P D (speed_profile_table w) = Some (j, p))
        by exact Hfind;
      rewrite Hfind'
  end.
  run_handlers. rewrite <- Hchan, lookup_insert_eq. by destruct (single_step p).
Qed.

Lemma select_then_edit_shows_the_popover_for_single_step_witness :
  2 <> _ADD_NEW_PROFILE_INDEX /\
  list_find (fun q => id q = 2) (speed_profile_table (idle balanced))
  = Some (1%nat, fixed75) /\
  channel fixed75 = ChannelType_value FAN /\
  fst ((_select_speed_profile 2 FAN ;; _on_edit_button_clicked FAN) (idle balanced))
  = Returned [show_fixed_speed_profile_popover fixed75].
Proof.
  assert (Hpid : 2 <> _ADD_NEW_PROFILE_INDEX) by discriminate.
  split; [exact Hpid|]. split; [reflexivity|]. split; [reflexivity|].
  exact (f_equal fst (select_then_edit_shows_the_popover_for_single_step
                        (idle balanced) 2 FAN 1%nat fixed75 Hpid eq_refl eq_refl)).
Defined.

Lemma keeps_selected_ret {A : Type} (a : A) : keeps_selected (ret a).
Proof. by intros w. Qed.

Lemma keeps_selected_raise {A : Type} (e : exn) : keeps_selected (@raise A e).
Proof. by intros w. Qed.

Lemma keeps_selected_gets {A : Type} (f : world -> A) : keeps_selected (gets f).
Proof. by intros w. Qed.

Lemma keeps_selected_emit (e : event) : keeps_selected (emit e).
Proof. by intros w. Qed.

Lemma keeps_selected_modify (f : world -> world) :
  (forall w, _profile_selected (f w) = _profile_selected w) ->
  keeps_selected (modify f).
Proof. intros Hf w. apply Hf. Qed.

Lemma keeps_selected_bind {A B : Type} (m : M A) (k : A -> M B) :
  keeps_selected m -> (forall a, keeps_selected (k a)) -> keeps_selected (bind m k).
Proof.
  intros Hm Hk w. unfold bind. specialize (Hm w).
  destruct (m w) as [[a|e] w1]; simpl in Hm; [|exact Hm].
  by rewrite (Hk a w1).
Qed.

Lemma keeps_selected_for_each {A : Type} (f : A -> M unit) (l : list A) :
  (forall a, keeps_selected (f a)) -> keeps_selected (for_each f l).
Proof.
  intros Hf. induction l as [|a l IH]; simpl; [apply keeps_selected_ret|].
  apply keeps_selected_bind; [apply Hf|]. intros _. exact IH.
Qed.

Create HintDb selected.

#[local] Hint Resolve keeps_selected_ret keeps_selected_raise keeps_selected_gets
  keeps_selected_emit keeps_selected_bind keeps_selected_for_each : selected.

Lemma keeps_selected_on_start (conf : Conf) : keeps_selected (on_start conf).
Proof.
  unfold on_start, _init_speed_profiles, _init_settings, _start_refresh,
    _check_new_version, view, LOG.
  apply keeps_selected_bind.
  - apply keeps_selected_for_each. intros c.
    unfold _init_speed_profiles_channel, _get_profile_list, get_or_none,
      _set_speed_profile, view.
    apply keeps_selected_bind; [auto with selected|]. intros data.
    apply keeps_selected_bind; [auto with selected|]. intros [|].
    + apply keeps_selected_bind; [|auto with selected].
      apply keeps_selected_bind; [by apply keeps_selected_modify|]. intros _.
      apply keeps_selected_bind; [auto with selected|].
      intros [[i current]|]; [|auto with selected].
      destruct data as [|item0 data]; [auto with selected|].
      unfold CurrentSpeedProfile_profile.
      apply keeps_selected_bind.
      * apply keeps_selected_bind; [auto with selected|].
        intros [found|]; auto with selected.
      * intros p. destruct (list_find _ (item0 :: data)) as [[j item]|];
          auto with selected.
    + apply keeps_selected_bind; auto with selected.
  - intros _. apply keeps_selected_bind; [apply keeps_selected_bind; auto with selected|].
    intros _. apply keeps_selected_bind; [|auto with selected].
    apply keeps_selected_bind; [auto with selected|]. intros _.
    apply keeps_selected_bind; [auto with selected|]. intros seconds.
    by apply keeps_selected_modify.
Qed.

(** X18: [on_start] selects no profile, however it ends.  While no profile
    is selected for a channel, as in the state that [__init__] and
    [on_start] leave, the handlers of the channel's apply and edit buttons
    raise [KeyError] for the channel's name: no request goes to the device,
    and a click on the fan's apply button does not turn tracking on. *)
Theorem buttons_raise_key_error_before_any_selection (conf : Conf)
    (profiles : list SpeedProfile) (current : list CurrentSpeedProfile)
    (settings : SettingsInteractor) (c : ChannelType) :
  let w := exec (on_start conf) (Presenter_init profiles current settings) in
  _profile_selected w = ∅ /\
  _on_edit_button_clicked c w = (Raised (KeyError (ChannelType_value c)), w) /\
  on_fan_apply_button_clicked w = (Raised (KeyError "fan"), w) /\
  on_pump_apply_button_clicked w = (Raised (KeyError "pump"), w).
Proof.
  intros w.
  assert (Hsel : _profile_selected w = ∅).
  { subst w. unfold exec. by rewrite keeps_selected_on_start. }
  split; [exact Hsel|].
  unfold _on_edit_button_clicked, on_fan_apply_button_clicked,
    on_pump_apply_button_clicked.
  run. rewrite Hsel, !lookup_empty. by repeat split.
Qed.

(** ** [get_speed_profile_data] on every key *)

Lemma dict_of_steps_lookup (l : list SpeedStep) (k : Z) :
  dict_of_steps l !! k = duty <$> last (filter (fun s => temperature s = k) l).
Proof.
  induction l as [|x l IH] using rev_ind; [done|].
  rewrite dict_of_steps_snoc, filter_app.
  destruct (decide (temperature x = k)) as [Heq|Hne].
  - rewrite Heq, lookup_insert_eq.
    rewrite filter_cons_True by exact Heq. rewrite filter_nil.
    by rewrite last_snoc.
  - rewrite lookup_insert_ne by exact Hne.
    rewrite filter_cons_False by exact Hne. rewrite filter_nil, app_nil_r.
    exact IH.
Qed.

Lemma dict_of_steps_is_Some_iff (l : list SpeedStep) (k : Z) :
  is_Some (dict_of_steps l !! k) <-> exists s, s ∈ l /\ temperature s = k.
Proof.
  split.
  - intros [d Hd]. apply dict_of_steps_Some in Hd as (s & Hin & Hs & _). by exists s.
  - intros (s & Hin & <-). by apply dict_of_steps_is_Some.
Qed.

Lemma get_speed_profile_data_cases (conf : Conf) (p : SpeedProfile) :
  (steps p = [] /\ get_speed_profile_data conf p = Returned ∅)
  \/ (exists first rest,
        steps p = first :: rest /\ single_step p = true /\
        get_speed_profile_data conf p
        = Returned (<[MAX_TEMP conf := duty first]> (dict_of_steps (steps p))))
  \/ (steps p <> [] /\ single_step p = false /\
      is_Some (dict_of_steps (steps p) !! MIN_TEMP conf) /\
      get_speed_profile_data conf p
      = Returned (<[MAX_TEMP conf := MAX_DUTY conf]> (dict_of_steps (steps p))))
  \/ (steps p <> [] /\ single_step p = false /\
      dict_of_steps (steps p) !! MIN_TEMP conf = None /\
      exists d,
        get_speed_profile_data conf p
        = Returned (<[MAX_TEMP conf := MAX_DUTY conf]>
                      (<[MIN_TEMP conf := d]> (dict_of_steps (steps p))))).
Proof.
  unfold get_speed_profile_data.
  destruct (steps p) as [|first rest] eqn:Hsteps; [by left|]. right.
  assert (Hfirst : first ∈ first :: rest) by by left.
  rewrite bool_decide_eq_false_2.
  2:{ intros Hempty. destruct (dict_of_steps_is_Some _ _ Hfirst) as [d Hd].
      by rewrite Hempty, lookup_empty in Hd. }
  destruct (single_step p); [left; by exists first, rest|]. right.
  destruct (dict_of_steps (first :: rest) !! MIN_TEMP conf) as [d0|] eqn:Hmin.
  { left. repeat split; [done|by eexists]. }
  right. repeat split; [done|].
  destruct (list_min (elements (dom (dict_of_steps (first :: rest))))) as [lowest|]
    eqn:Hlow.
  2:{ destruct (dict_of_steps_is_Some _ _ Hfirst) as [d Hd].
      assert (Hk : temperature first ∈ elements (dom (dict_of_steps (first :: rest)))).
      { apply elem_of_elements, elem_of_dom. by eexists. }
      destruct (elements _); [by apply elem_of_nil in Hk|done]. }
  apply list_min_spec in Hlow as [Hlowin _].
  apply elem_of_elements, elem_of_dom in Hlowin as [d Hd]. rewrite Hd.
  by exists d.
Qed.

(** X19: [get_speed_profile_data] never raises, for any profile and any
    constants.  At every key but [MAX_TEMP], and but [MIN_TEMP] where it
    fills it in, the mapping it returns holds what the steps give: the
    duty of the last step with that temperature, and nothing when no step
    has it. *)
Theorem get_speed_profile_data_keeps_the_steps (conf : Conf) (p : SpeedProfile) :
  exists data : gmap Z Z,
    get_speed_profile_data conf p = Returned data /\
    forall k,
      k <> MAX_TEMP conf ->
      (k <> MIN_TEMP conf \/ single_step p = true
       \/ exists s, s ∈ steps p /\ temperature s = k) ->
      data !! k = duty <$> last (filter (fun s => temperature s = k) (steps p)).
Proof.
  destruct (get_speed_profile_data_cases conf p)
    as [[Hnil ->]|[(first & rest & Hsteps & Hsingle & ->)
                  |[(Hne & Hsingle & Hmin & ->)|(Hne & Hsingle & Hmin & d & ->)]]];
    eexists; (split; [reflexivity|]); intros k Hmax Hk.
  - by rewrite Hnil.
  - rewrite lookup_insert_ne by congruence. apply dict_of_steps_lookup.
  - rewrite lookup_insert_ne by congruence. apply dict_of_steps_lookup.
  - rewrite lookup_insert_ne by congruence.
    destruct (decide (k = MIN_TEMP conf)) as [->|Hkmin].
    + destruct Hk as [Hk|[Hk|Hk]]; [done|congruence|].
      apply dict_of_steps_is_Some_iff in Hk. rewrite Hmin in Hk. by destruct Hk.
    + rewrite lookup_insert_ne by congruence. apply dict_of_steps_lookup.
Qed.

(** X20: the keys of the mapping that [get_speed_profile_data] returns are
    the temperatures of the steps and, when there is a step at all,
    [MAX_TEMP] and, unless the profile is a single-step one, [MIN_TEMP]:
    a profile without steps gives no key, and a single-step profile gets
    no entry at [MIN_TEMP] of its own. *)
Theorem get_speed_profile_data_keys (conf : Conf) (p : SpeedProfile) :
  exists data : gmap Z Z,
    get_speed_profile_data conf p = Returned data /\
    forall k,
      is_Some (data !! k) <->
      (exists s, s ∈ steps p /\ temperature s = k)
      \/ (steps p <> [] /\ (k = MAX_TEMP conf \/ (single_step p = false /\ k = MIN_TEMP conf))).
Proof.
  destruct (get_speed_profile_data_cases conf p)
    as [[Hnil ->]|[(first & rest & Hsteps & Hsingle & ->)
                  |[(Hne & Hsingle & Hmin & ->)|(Hne & Hsingle & Hmin & d & ->)]]];
    eexists; (split; [reflexivity|]); intros k.
  - rewrite lookup_empty, Hnil. split; [by intros []|].
    intros [(s & Hs & _)|[Hne _]]; [by apply elem_of_nil in Hs|done].
  - rewrite lookup_insert_is_Some, dict_of_steps_is_Some_iff, Hsingle. split.
    + intros [<-|[_ Hk]]; [right|by left]. split; [by rewrite Hsteps|by left].
    + intros [Hk|[_ [->|[Hf _]]]]; [|by left|done].
      destruct (decide (MAX_TEMP conf = k)); [by left|by right].
  - rewrite lookup_insert_is_Some, dict_of_steps_is_Some_iff. split.
    + intros [<-|[_ Hk]]; [right; split; [done|by left]|by left].
    + intros [Hk|[_ [->|[_ ->]]]].
      * destruct (decide (MAX_TEMP conf = k)); [by left|by right].
      * by left.
      * destruct (decide (MAX_TEMP conf = MIN_TEMP conf)); [by left|right].
        split; [done|]. by apply dict_of_steps_is_Some_iff.
  - rewrite !lookup_insert_is_Some, dict_of_steps_is_Some_iff. split.
    + intros [<-|[_ [<-|[_ Hk]]]].
      * right. split; [done|by left].
      * right. split; [done|by right].
      * by left.
    + intros [Hk|[_ [->|[_ ->]]]].
      * destruct (decide (MAX_TEMP conf = k)); [by left|right; split; [done|]].
        destruct (decide (MIN_TEMP conf = k)); [by left|by right].
      * by left.
      * destruct (decide (MAX_TEMP conf = MIN_TEMP conf)); [by left|right].
        split; [done|by left].
Qed.

(** ** [on_setting_changed] *)

Lemma string_length_app (r s : string) :
  String.length (r +:+ s) = (String.length r + String.length s)%nat.
Proof. induction r as [|c r IH]; simpl; [reflexivity|by rewrite IH]. Qed.

Lemma strip_suffix_cons (suffix s : string) (c : ascii) :
  strip_suffix suffix (String c s)
  = if String.eqb (String c s) suffix then Some EmptyString
    else match strip_suffix suffix s with
         | Some r => Some (String c r)
         | None => None
         end.
Proof. reflexivity. Qed.

Lemma strip_suffix_app (suffix r : string) :
  strip_suffix suffix (r +:+ suffix) = Some r.
Proof.
  induction r as [|c r IH].
  - simpl. destruct suffix as [|a suffix]; simpl; [reflexivity|].
    by rewrite Ascii.eqb_refl, String.eqb_refl.
  - change (String c r +:+ suffix) with (String c (r +:+ suffix)).
    rewrite strip_suffix_cons, IH.
    assert (Hne : String c (r +:+ suffix) <> suffix).
    { intros Heq. apply (f_equal String.length) in Heq. simpl in Heq.
      rewrite string_length_app in Heq. lia. }
    apply String.eqb_neq in Hne. by rewrite Hne.
Qed.

Lemma strip_suffix_Some (suffix s r : string) :
  strip_suffix suffix s = Some r -> s = r +:+ suffix.
Proof.
  revert r. induction s as [|c s IH]; intros r.
  - simpl. destruct suffix; [by intros [= <-]|discriminate].
  - rewrite strip_suffix_cons. destruct (String.eqb (String c s) suffix) eqn:Heq.
    + apply String.eqb_eq in Heq. by intros [= <-].
    + destruct (strip_suffix suffix s) as [r'|]; [|discriminate].
      intros [= <-]. simpl. by rewrite (IH r').
Qed.

(** X21: a switch named [key] followed by [_switch] stores the state it
    signals under [key], and a spin button named [key] followed by
    [_spinbutton] stores its value under [key], whatever [key] is; a name
    that ends neither with the suffix nor with the suffix and a newline is
    used as the key unchanged.  Also the value of a spin button goes
    through [set_bool]. *)
Theorem on_setting_changed_stores_under_the_widget_key (key : string)
    (value : setting_value) (args : list (option setting_value)) (n : Z) :
  on_setting_changed (GtkSwitch (key +:+ "_switch")) (Some value :: args)
  = Returned (Some (key, value)) /\
  on_setting_changed (GtkSpinButton (key +:+ "_spinbutton") n) args
  = Returned (Some (key, VInt n)) /\
  forall suffix widget_name,
    (forall r, widget_name <> r +:+ suffix) ->
    (forall r, widget_name <> r +:+ (suffix +:+ newline)) ->
    re_sub_at_end suffix widget_name = widget_name.
Proof.
  split; [|split].
  - unfold on_setting_changed, re_sub_at_end. by rewrite strip_suffix_app.
  - unfold on_setting_changed, re_sub_at_end. by rewrite strip_suffix_app.
  - intros suffix widget_name H1 H2. unfold re_sub_at_end.
    destruct (strip_suffix suffix widget_name) as [r|] eqn:Hs.
    { apply strip_suffix_Some in Hs. by destruct (H1 r). }
    destruct (strip_suffix (suffix +:+ newline) widget_name) as [r|] eqn:Hn; [|done].
    apply strip_suffix_Some in Hn. by destruct (H2 r).
Qed.

Example switch_of_load_last_profile :
  on_setting_changed (GtkSwitch "settings_load_last_profile_switch") [Some (VBool true)]
  = Returned (Some ("settings_load_last_profile", VBool true)).
Proof. reflexivity. Qed.

Example switch_without_arguments :
  on_setting_changed (GtkSwitch "settings_load_last_profile_switch") []
  = Raised (Exception "IndexError").
Proof. reflexivity. Qed.

Example name_ending_with_a_newline :
  re_sub_at_end "_switch" ("a_switch" +:+ newline) = "a" +:+ newline.
Proof. reflexivity. Qed.
